(** * Task manager backend (src/api/app.py): model and properties

    The program is a Flask application over one SQLAlchemy model, [Task],
    stored in an SQLite table.  The handlers are ten-line functions; what
    they do is decided by the few library calls they make
    ([get_json], [get_or_404], [ilike], [order_by], [session.commit], the
    column options [primary_key], [nullable], [default], [onupdate]) and by
    the one [try ... except Exception] that wraps every handler body.  The
    model below writes those calls out as functions on an explicit world
    (the table and the clock) and keeps the handlers line by line. *)

From Stdlib Require Import ZArith Ascii String.
From stdpp Require Import gmap strings list sorting pretty.

Local Open Scope Z_scope.
Set Warnings "-register-all".

(** ** SQL text functions used by [get_tasks] *)

Module Sql.

(** A text is kept as the bytes the driver hands to the engine (UTF-8);
    one [ascii] is one byte.  SQLite's built-in [lower()] and the
    comparison inside [LIKE] fold the 26 ASCII capitals only. *)
Definition lower_char (c : ascii) : ascii :=
  let n := nat_of_ascii c in
  if ((65 <=? n)%nat && (n <=? 90)%nat)%bool then ascii_of_nat (n + 32) else c.

Definition lower (s : list ascii) : list ascii := lower_char <$> s.

Definition pct : ascii := "%"%char.
Definition und : ascii := "_"%char.
Definition nul : ascii := "000"%char.

(** [sqlite3Utf8Read], by which [LIKE] takes one character at a time
    from either operand: a byte below 0xC0 is a character by itself; a
    byte from 0xC0 on opens a character that takes in every continuation
    byte (10xxxxxx) after it, in 32-bit arithmetic, and is read as U+FFFD
    when the value comes out below 0x80, as a surrogate, or as U+FFFE or
    U+FFFF.  Both operands are C strings: reading ends at the first NUL
    byte, whatever follows. *)
Definition is_continuation (n : N) : bool := (N.land n 192 =? 128)%N.

Definition utf8_trans1 (n : N) : N :=
  if (n <? 224)%N then N.land n 31
  else if (n <? 240)%N then N.land n 15
  else if (n <? 248)%N then N.land n 7
  else if (n <? 252)%N then N.land n 3
  else if (n <? 254)%N then N.land n 1
  else 0%N.

Definition utf8_step (c n : N) : N := ((c * 64 + N.land n 63) mod 4294967296)%N.

Definition utf8_value (c : N) : N :=
  if ((c <? 128) || (N.land c 4294965248 =? 55296) || (N.land c 4294967294 =? 65534))%N
  then 65533%N else c.

Definition utf8_flush (pending : option N) : list N :=
  match pending with Some c => [utf8_value c] | None => [] end.

Fixpoint utf8_read (pending : option N) (s : list ascii) : list N :=
  match s with
  | [] => utf8_flush pending
  | b :: s' =>
      let n := N_of_ascii b in
      match pending with
      | Some c =>
          if is_continuation n then utf8_read (Some (utf8_step c n)) s'
          else utf8_value c ::
               (if (n =? 0)%N then []
                else if (n <? 192)%N then n :: utf8_read None s'
                else utf8_read (Some (utf8_trans1 n)) s')
      | None =>
          if (n =? 0)%N then []
          else if (n <? 192)%N then n :: utf8_read None s'
          else utf8_read (Some (utf8_trans1 n)) s'
      end
  end.

(** The characters of a C string, as the engine reads them. *)
Definition chars (s : list ascii) : list N := utf8_read None s.

Definition match_all : N := 37.
Definition match_one : N := 95.

Definition tolower (c : N) : N :=
  if ((65 <=? c) && (c <=? 90))%N then (c + 32)%N else c.

(** [like p s] is the matching rule of [LIKE] ([patternCompare]) on the
    characters of pattern and text: ['%'] stands for any run of
    characters (possibly empty), ['_'] for exactly one character, any
    other pattern character for itself up to ASCII case.  No escape
    character is in force (the query passes none). *)
Fixpoint like (p : list N) : list N → bool :=
  match p with
  | [] => λ s, match s with [] => true | _ :: _ => false end
  | c :: p' =>
      if (c =? match_all)%N then
        fix star (s : list N) : bool :=
          like p' s || match s with [] => false | _ :: s' => star s' end
      else
        λ s, match s with
             | [] => false
             | d :: s' =>
                 ((c =? match_one)%N || (tolower c =? tolower d)%N) && like p' s'
             end
  end.

(** The default of [SQLITE_LIMIT_LIKE_PATTERN_LENGTH], in bytes. *)
Definition LIKE_PATTERN_LENGTH : Z := 50000.

(** The SQL function behind [X LIKE P], run once per row: a pattern of
    more than 50000 bytes (NUL and what follows counted) is refused with
    "LIKE or GLOB pattern too complex" ([None]); otherwise the two C
    strings are matched. *)
Definition like_fn (pattern text : list ascii) : option bool :=
  if decide (LIKE_PATTERN_LENGTH < Z.of_nat (length pattern)) then None
  else Some (like (chars pattern) (chars text)).

(** [column.ilike(pattern)] is rendered for SQLite as
    [lower(column) LIKE lower(pattern)]; [lower()] works on all the bytes
    of its argument. *)
Definition ilike (column pattern : string) : option bool :=
  like_fn (lower (list_ascii_of_string pattern)) (lower (list_ascii_of_string column)).

(** A term free of the two pattern characters and of NUL. *)
Definition plain (s : list ascii) : Prop :=
  Forall (λ c, c ≠ pct ∧ c ≠ und ∧ c ≠ nul) s.

(** The characters of a text once lowered, as [LIKE] meets them: those
    up to the first NUL. *)
Definition folded (s : string) : list N := chars (lower (list_ascii_of_string s)).

(** The specification's reading of a search hit: the term occurs in the
    text as a contiguous run of characters, compared up to ASCII case. *)
Definition contains_ci (term text : string) : Prop :=
  ∃ a b : list N, folded text = a ++ folded term ++ b.



(** Python's [needle in haystack] on two strings. *)
Fixpoint is_prefix (p s : list ascii) : bool :=
  match p, s with
  | [], _ => true
  | _ :: _, [] => false
  | c :: p', d :: s' => Ascii.eqb c d && is_prefix p' s'
  end.

Fixpoint is_infix (p s : list ascii) : bool :=
  is_prefix p s || match s with [] => false | _ :: s' => is_infix p s' end.

(** A Python [str] can hold a lone surrogate, which has no UTF-8
    encoding; it is kept here as the three bytes the [surrogatepass]
    handler writes for it, [ED] then [A0..BF] then one more. *)
Fixpoint has_surrogate (s : list ascii) : bool :=
  match s with
  | [] => false
  | c :: s' =>
      match s' with
      | d :: _ =>
          (Ascii.eqb c "237"%char
           && (160 <=? nat_of_ascii d)%nat && (nat_of_ascii d <=? 191)%nat)%bool
      | [] => false
      end || has_surrogate s'
  end.

End Sql.

(** ** Data model *)

(** What [request.get_json()] can return: any JSON value, as the Python
    object it becomes.  A float is kept as what the program can observe of
    it: whether it is non-zero, and the text the engine stores for it in a
    text column ([None] for NaN, which the engine stores as NULL). *)
Inductive jval :=
| JNull
| JBool (b : bool)
| JInt (z : Z)
| JFloat (nonzero : bool) (stored : option string)
| JStr (s : string)
| JArr (items : list jval)
| JObj (members : gmap string jval).

(** The body of a request as the framework sees it: JSON, or something
    [get_json] refuses (no JSON content type, text that does not parse). *)
Inductive payload := NoJson | Json (v : jval).

(** Python truth value. *)
Definition truthy (v : jval) : bool :=
  match v with
  | JNull => false
  | JBool b => b
  | JInt z => negb (z =? 0)
  | JFloat nonzero _ => nonzero
  | JStr s => negb (String.eqb s "")
  | JArr items => match items with [] => false | _ :: _ => true end
  | JObj members => negb (bool_decide (size members = 0%nat))
  end.

(** A column value as the ORM loads it: a [str], or [None] for NULL. *)
Definition of_text (o : option string) : jval :=
  match o with Some s => JStr s | None => JNull end.

(** [v == old] for an attribute value [v] and the value [old] the
    attribute was loaded with, which is a [str] or [None]: no other kind
    of JSON value equals either. *)
Definition same_as_loaded (v : jval) (old : option string) : bool :=
  match v, old with
  | JStr s, Some s' => bool_decide (s = s')
  | JNull, None => true
  | _, _ => false
  end.

(** The ORM object: an instance of [class Task(db.Model)].  The
    attributes set from a request hold whatever Python value was
    assigned. *)
Module Task.
Record t := mk {
  id : option Z;
  date : jval;
  entity_name : jval;
  task_type : jval;
  time : jval;
  contact_person : jval;
  notes : jval;
  status : jval;
  phone_number : jval;
  created_at : option Z;
  updated_at : option Z
}.
End Task.

(** A stored row of table [task], typed by the column declarations: the
    string and text columns hold text, the [nullable=False] ones cannot
    hold NULL.  The primary key is the key of the table map, not a field.
    Instants are microsecond counts. *)
Module Row.
Record t := mk {
  date : string;
  entity_name : string;
  task_type : string;
  time : string;
  contact_person : string;
  notes : option string;
  status : string;
  phone_number : option string;
  created_at : option Z;
  updated_at : option Z
}.
End Row.

(** The rendering [datetime.isoformat()] of an instant; injective, so it
    is kept as the instant it denotes. *)
Inductive iso8601 := Iso (instant : Z).

(** The dictionary built by [Task.to_dict]: the wire names. *)
Module TaskDict.
Record t := mk {
  id : option Z;
  date : jval;
  entityName : jval;
  taskType : jval;
  time : jval;
  contactPerson : jval;
  notes : jval;
  status : jval;
  phoneNumber : jval;
  createdAt : option iso8601;
  updatedAt : option iso8601
}.
End TaskDict.

Global Instance Row_eq_dec : EqDecision Row.t.
Proof. solve_decision. Defined.
Global Instance iso8601_eq_dec : EqDecision iso8601.
Proof. solve_decision. Defined.

(** [to_dict], lines 32-45. *)
Definition to_dict (self : Task.t) : TaskDict.t :=
  {| TaskDict.id := Task.id self;
     TaskDict.date := Task.date self;
     TaskDict.entityName := Task.entity_name self;
     TaskDict.taskType := Task.task_type self;
     TaskDict.time := Task.time self;
     TaskDict.contactPerson := Task.contact_person self;
     TaskDict.notes := Task.notes self;
     TaskDict.status := Task.status self;
     TaskDict.phoneNumber := Task.phone_number self;
     TaskDict.createdAt :=
       match Task.created_at self with Some t => Some (Iso t) | None => None end;
     TaskDict.updatedAt :=
       match Task.updated_at self with Some t => Some (Iso t) | None => None end |}.

(** Exceptions the modelled calls raise.  Each class derives from
    Python's [Exception]: [NotFound] is werkzeug's [HTTPException] for
    status 404, raised by [get_or_404]; [BadRequest] stands for the
    [HTTPException] [get_json] raises; [AttributeError], [TypeError] and
    [KeyError] come from the operations on the parsed body;
    [OverflowError], [UnicodeEncodeError] and [ProgrammingError] from
    binding a parameter; [IntegrityError] and [OperationalError] from the
    engine; [DatabaseFull] is the engine giving up on finding a key. *)
Inductive exn :=
| NotFound
| BadRequest
| AttributeError (what : string)
| TypeError (what : string)
| KeyError (key : string)
| OverflowError
| UnicodeEncodeError
| ProgrammingError (what : string)
| IntegrityError (constraint : string)
| OperationalError (what : string)
| DatabaseFull.

(** [str(e)]; for the database errors the library's text goes on with
    the statement and its parameters, which no property reads. *)
Definition str (e : exn) : string :=
  match e with
  | NotFound =>
      "404 Not Found: The requested URL was not found on the server. If you entered the URL manually please check your spelling and try again."
  | BadRequest =>
      "400 Bad Request: The browser (or proxy) sent a request that this server could not understand."
  | AttributeError what => what
  | TypeError what => what
  | KeyError k => "'" +:+ k +:+ "'"
  | OverflowError => "Python int too large to convert to SQLite INTEGER"
  | UnicodeEncodeError => "'utf-8' codec can't encode character: surrogates not allowed"
  | ProgrammingError what => "(sqlite3.ProgrammingError) " +:+ what
  | IntegrityError c => "(sqlite3.IntegrityError) " +:+ c
  | OperationalError what => "(sqlite3.OperationalError) " +:+ what
  | DatabaseFull => "(sqlite3.OperationalError) database or disk is full"
  end.

(** Binding a Python value as a statement parameter for a string or text
    column, and what the column then holds: [None] is NULL; a [str] is
    its text, unless it has a lone surrogate; a number is stored in text
    form ([True] and [False] as the integers 1 and 0); an integer outside
    64 bits, a list and a dict are refused by the driver. *)
Definition int64 (z : Z) : Prop := - 9223372036854775808 ≤ z ≤ 9223372036854775807.

Global Instance int64_dec z : Decision (int64 z).
Proof. unfold int64. apply _. Defined.

Definition bind (v : jval) : exn + option string :=
  match v with
  | JNull => inr None
  | JBool b => inr (Some (if b then "1" else "0"))
  | JInt z =>
      if decide (int64 z)
      then inr (Some (pretty z)) else inl OverflowError
  | JFloat _ stored => inr stored
  | JStr s =>
      if Sql.has_surrogate (list_ascii_of_string s) then inl UnicodeEncodeError
      else inr (Some s)
  | JArr _ => inl (ProgrammingError "Error binding parameter: type 'list' is not supported")
  | JObj _ => inl (ProgrammingError "Error binding parameter: type 'dict' is not supported")
  end.

(** JSON bodies the handlers build with [jsonify]. *)
Inductive Body :=
| BTask (task : TaskDict.t)                     (* task.to_dict() *)
| BList (data : list TaskDict.t)                (* success: True, data: [...] *)
| BData (data : TaskDict.t) (message : string)  (* success: True, data, message *)
| BMessage (message : string)                   (* success: True, message *)
| BFail (error : string)                        (* success: False, error *)
| BError (error : string)                       (* error *)
| BPage (html : string).                        (* the framework's own error page *)

Record Response := { body : Body; code : nat }.

(** The world a request runs in: the committed table and the number of
    clock readings taken so far. *)
Record World := { table : gmap Z Row.t; reads : nat }.

(** Largest key an SQLite rowid can take. *)
Definition MAX_ROWID : Z := 9223372036854775807.

Fixpoint max_list_Z (l : list Z) : option Z :=
  match l with
  | [] => None
  | k :: l' => Some (match max_list_Z l' with Some m => Z.max k m | None => k end)
  end.

Definition max_rowid (tbl : gmap Z Row.t) : option Z := max_list_Z (map_to_list tbl).*1.

(** Key of a row inserted without one.  [id] is declared
    [db.Integer, primary_key=True], which is an [INTEGER PRIMARY KEY]
    without [AUTOINCREMENT]: the engine takes one more than the largest
    key in the table, or 1 when the table is empty.  At the largest
    possible key the engine probes random keys instead; the model stops
    there ([None]). *)
Definition next_rowid (tbl : gmap Z Row.t) : option Z :=
  match max_rowid tbl with
  | None => Some 1
  | Some m => if decide (m < MAX_ROWID) then Some (m + 1) else None
  end.

(** ** The request monad: a world threaded through, or an exception *)

Definition M (A : Type) : Type := World → (exn + A) * World.

Global Instance M_ret : MRet M := λ A a w, (inr a, w).
Global Instance M_bind : MBind M := λ A B f m w,
  match m w with
  | (inr a, w') => f a w'
  | (inl e, w') => (inl e, w')
  end.

Definition raise {A} (e : exn) : M A := λ w, (inl e, w).
Definition lift {A} (r : exn + A) : M A := λ w, (r, w).
Definition get_table : M (gmap Z Row.t) := λ w, (inr (table w), w).
Definition put_table (tbl : gmap Z Row.t) : M unit :=
  λ w, (inr (), {| table := tbl; reads := reads w |}).

(** [db.session.rollback()]: the table goes back to what it was when the
    request began; clock readings already taken stay taken. *)
Definition rollback (w0 w : World) : World :=
  {| table := table w0; reads := reads w |}.

(** [request.get_json()]. *)
Definition get_json (request : payload) : M jval :=
  match request with
  | Json v => mret v
  | NoJson => raise BadRequest
  end.

(** [data.get(key)]: a method of dictionaries only. *)
Definition py_get (data : jval) (key : string) : M jval :=
  match data with
  | JObj members => mret (default JNull (members !! key))
  | _ => raise (AttributeError "object has no attribute 'get'")
  end.

(** [key in data]: key membership for a dictionary, element membership
    for a list (an element equals a [str] only if it is that [str]), the
    substring test for a string; the other values are not iterable. *)
Definition py_in (key : string) (data : jval) : M bool :=
  match data with
  | JObj members => mret (bool_decide (is_Some (members !! key)))
  | JArr items =>
      mret (existsb (λ x, match x with JStr s => String.eqb s key | _ => false end) items)
  | JStr s => mret (Sql.is_infix (list_ascii_of_string key) (list_ascii_of_string s))
  | _ => raise (TypeError "argument is not iterable")
  end.

(** [data[key]] for a string [key]. *)
Definition py_item (data : jval) (key : string) : M jval :=
  match data with
  | JObj members =>
      match members !! key with
      | Some v => mret v
      | None => raise (KeyError key)
      end
  | _ => raise (TypeError "indices must be integers")
  end.

(** A row as the ORM loads it. *)
Definition load (k : Z) (r : Row.t) : Task.t :=
  {| Task.id := Some k;
     Task.date := JStr (Row.date r);
     Task.entity_name := JStr (Row.entity_name r);
     Task.task_type := JStr (Row.task_type r);
     Task.time := JStr (Row.time r);
     Task.contact_person := JStr (Row.contact_person r);
     Task.notes := of_text (Row.notes r);
     Task.status := JStr (Row.status r);
     Task.phone_number := of_text (Row.phone_number r);
     Task.created_at := Row.created_at r;
     Task.updated_at := Row.updated_at r |}.

(** Attribute assignment on the ORM object: [task.status = v] and so on. *)
Definition set_status (task : Task.t) (v : jval) : Task.t :=
  {| Task.id := Task.id task; Task.date := Task.date task;
     Task.entity_name := Task.entity_name task;
     Task.task_type := Task.task_type task; Task.time := Task.time task;
     Task.contact_person := Task.contact_person task;
     Task.notes := Task.notes task; Task.status := v;
     Task.phone_number := Task.phone_number task;
     Task.created_at := Task.created_at task;
     Task.updated_at := Task.updated_at task |}.

Definition set_entity_name (task : Task.t) (v : jval) : Task.t :=
  {| Task.id := Task.id task; Task.date := Task.date task;
     Task.entity_name := v;
     Task.task_type := Task.task_type task; Task.time := Task.time task;
     Task.contact_person := Task.contact_person task;
     Task.notes := Task.notes task; Task.status := Task.status task;
     Task.phone_number := Task.phone_number task;
     Task.created_at := Task.created_at task;
     Task.updated_at := Task.updated_at task |}.

Definition set_notes (task : Task.t) (v : jval) : Task.t :=
  {| Task.id := Task.id task; Task.date := Task.date task;
     Task.entity_name := Task.entity_name task;
     Task.task_type := Task.task_type task; Task.time := Task.time task;
     Task.contact_person := Task.contact_person task;
     Task.notes := v; Task.status := Task.status task;
     Task.phone_number := Task.phone_number task;
     Task.created_at := Task.created_at task;
     Task.updated_at := Task.updated_at task |}.

(** Computations that end in a value or an exception and touch no state. *)
Global Instance result_ret : MRet (sum exn) := λ A a, inr a.
Global Instance result_bind : MBind (sum exn) := λ A B f r,
  match r with
  | inr a => f a
  | inl e => inl e
  end.

(** The [nullable=False] check of one column. *)
Definition not_null (column : string) (v : option string) : exn + string :=
  match v with
  | Some s => inr s
  | None => inl (IntegrityError ("NOT NULL constraint failed: task." +:+ column))
  end.

(** The values of an INSERT for an added object: a [None] status takes
    the column default ['Open']; the driver binds the parameters in column
    order; then the engine checks the constraints. *)
Definition insert_values (t : Task.t) (created updated : Z) : exn + Row.t :=
  let status := match Task.status t with JNull => JStr "Open" | v => v end in
  date ← bind (Task.date t);
  entity_name ← bind (Task.entity_name t);
  task_type ← bind (Task.task_type t);
  time ← bind (Task.time t);
  contact_person ← bind (Task.contact_person t);
  notes ← bind (Task.notes t);
  status ← bind status;
  phone_number ← bind (Task.phone_number t);
  date ← not_null "date" date;
  entity_name ← not_null "entity_name" entity_name;
  task_type ← not_null "task_type" task_type;
  time ← not_null "time" time;
  contact_person ← not_null "contact_person" contact_person;
  status ← not_null "status" status;
  mret {| Row.date := date; Row.entity_name := entity_name;
          Row.task_type := task_type; Row.time := time;
          Row.contact_person := contact_person; Row.notes := notes;
          Row.status := status; Row.phone_number := phone_number;
          Row.created_at := Some created; Row.updated_at := Some updated |}.

(** One column of an UPDATE: an attribute equal to the value it was
    loaded with stays out of the statement; another one is bound. *)
Definition set_value (v : jval) (old : option string) : exn + option string :=
  if same_as_loaded v old then inr old else bind v.

(** The unit of work compares each attribute with the value it was
    loaded with.  (The key and the two timestamps are not compared: no
    handler assigns them.) *)
Definition unchanged (loaded : Row.t) (t : Task.t) : bool :=
  same_as_loaded (Task.date t) (Some (Row.date loaded))
  && same_as_loaded (Task.entity_name t) (Some (Row.entity_name loaded))
  && same_as_loaded (Task.task_type t) (Some (Row.task_type loaded))
  && same_as_loaded (Task.time t) (Some (Row.time loaded))
  && same_as_loaded (Task.contact_person t) (Some (Row.contact_person loaded))
  && same_as_loaded (Task.notes t) (Row.notes loaded)
  && same_as_loaded (Task.status t) (Some (Row.status loaded))
  && same_as_loaded (Task.phone_number t) (Row.phone_number loaded).

(** The row an UPDATE of a loaded object writes: the changed attributes
    are bound, the engine checks the constraints, and [updated_at] takes
    the reading of its [onupdate]. *)
Definition update_values (loaded : Row.t) (t : Task.t) (updated : Z) : exn + Row.t :=
  date ← set_value (Task.date t) (Some (Row.date loaded));
  entity_name ← set_value (Task.entity_name t) (Some (Row.entity_name loaded));
  task_type ← set_value (Task.task_type t) (Some (Row.task_type loaded));
  time ← set_value (Task.time t) (Some (Row.time loaded));
  contact_person ← set_value (Task.contact_person t) (Some (Row.contact_person loaded));
  notes ← set_value (Task.notes t) (Row.notes loaded);
  status ← set_value (Task.status t) (Some (Row.status loaded));
  phone_number ← set_value (Task.phone_number t) (Row.phone_number loaded);
  date ← not_null "date" date;
  entity_name ← not_null "entity_name" entity_name;
  task_type ← not_null "task_type" task_type;
  time ← not_null "time" time;
  contact_person ← not_null "contact_person" contact_person;
  status ← not_null "status" status;
  mret {| Row.date := date; Row.entity_name := entity_name;
          Row.task_type := task_type; Row.time := time;
          Row.contact_person := contact_person; Row.notes := notes;
          Row.status := status; Row.phone_number := phone_number;
          Row.created_at := Row.created_at loaded;
          Row.updated_at := Some updated |}.

(** What the session holds when [commit] is called. *)
Inductive pending :=
| Added (t : Task.t)                    (* db.session.add(t) *)
| Dirty (k : Z) (loaded : Row.t) (t : Task.t)
                                        (* attributes of a loaded object were set *)
| Deleted (k : Z).                      (* db.session.delete(t) *)

Section App.

(** [utcnow n] is what the [n]-th call of [datetime.utcnow] returns. *)
Variable utcnow : nat → Z.

Definition clock_mono : Prop := ∀ i j : nat, (i ≤ j)%nat → utcnow i ≤ utcnow j.

Definition now : M Z :=
  λ w, (inr (utcnow (reads w)), {| table := table w; reads := S (reads w) |}).

(** A column with [default=datetime.utcnow]: the callable runs when the
    object carries no value. *)
Definition default_utcnow (v : option Z) : M Z :=
  match v with Some t => mret t | None => now end.

(** INSERT of an added object.  The Python-side timestamp defaults run
    first, one clock reading each; then the statement runs and the engine
    picks the key. *)
Definition flush_insert (t : Task.t) : M Z :=
  created ← default_utcnow (Task.created_at t);
  updated ← default_utcnow (Task.updated_at t);
  row ← lift (insert_values t created updated);
  tbl ← get_table;
  k ← match Task.id t with
      | Some k =>
          if decide (is_Some (tbl !! k))
          then raise (IntegrityError "UNIQUE constraint failed: task.id")
          else mret k
      | None =>
          match next_rowid tbl with
          | Some k => mret k
          | None => raise DatabaseFull
          end
      end;
  _ ← put_table (<[k := row]> tbl);
  mret k.

(** UPDATE of a loaded object.  No statement is emitted when no attribute
    differs from its loaded value.  When one is, [updated_at], which
    carries [onupdate=datetime.utcnow] and was not set by hand, takes a
    fresh reading before the statement runs. *)
Definition flush_update (k : Z) (loaded : Row.t) (t : Task.t) : M Z :=
  if unchanged loaded t then mret k
  else
    updated ← now;
    row ← lift (update_values loaded t updated);
    tbl ← get_table;
    _ ← put_table (<[k := row]> tbl);
    mret k.

Definition flush_delete (k : Z) : M Z :=
  tbl ← get_table;
  _ ← put_table (delete k tbl);
  mret k.

(** [db.session.commit()]; answers the identity key of the object. *)
Definition commit (p : pending) : M Z :=
  match p with
  | Added t => flush_insert t
  | Dirty k loaded t => flush_update k loaded t
  | Deleted k => flush_delete k
  end.

(** After a commit the session expires its objects; the next attribute
    access loads the row again. *)
Definition refresh (k : Z) : M Task.t :=
  tbl ← get_table;
  match tbl !! k with
  | Some r => mret (load k r)
  | None => raise (KeyError "id")
  end.

(** [Task.query.get_or_404(task_id)]: the row and its object, or
    [abort(404)], which raises [NotFound].  A key outside 64 bits is in
    no table, and the driver refuses to bind it for the lookup. *)
Definition lookup_failure (task_id : Z) : exn :=
  if decide (int64 task_id) then NotFound else OverflowError.

Definition get_or_404 (task_id : Z) : M (Row.t * Task.t) :=
  tbl ← get_table;
  match tbl !! task_id with
  | Some r => mret (r, load task_id r)
  | None => raise (lookup_failure task_id)
  end.

(** [order_by(Task.created_at.desc())]: NULL sorts below every instant. *)
Definition dt_le (a b : option Z) : Prop :=
  match a, b with
  | None, _ => True
  | Some _, None => False
  | Some x, Some y => x ≤ y
  end.

Global Instance dt_le_dec a b : Decision (dt_le a b).
Proof. destruct a, b; simpl; apply _. Defined.

Definition newer_first (a b : Z * Row.t) : Prop :=
  dt_le (Row.created_at b.2) (Row.created_at a.2).

Global Instance newer_first_dec a b : Decision (newer_first a b).
Proof. unfold newer_first. apply _. Defined.

Definition order_by_created_at_desc (rows : list (Z * Row.t)) : list (Z * Row.t) :=
  merge_sort newer_first rows.

(** The condition of lines 88-93 on one row:
    [or_(entity_name.ilike(...), contact_person.ilike(...))], or [None]
    when the engine refuses the pattern. *)
Definition search_hit (search : string) (kr : Z * Row.t) : option bool :=
  a ← Sql.ilike (Row.entity_name kr.2) ("%" +:+ search +:+ "%");
  b ← Sql.ilike (Row.contact_person kr.2) ("%" +:+ search +:+ "%");
  Some (a || b).

(** The scan of the table under a condition: the rows that meet it, or
    the engine's error at the first row whose test fails to run. *)
Fixpoint sql_where (condition : Z * Row.t → option bool) (rows : list (Z * Row.t))
  : M (list (Z * Row.t)) :=
  match rows with
  | [] => mret []
  | kr :: rest =>
      match condition kr with
      | None => raise (OperationalError "LIKE or GLOB pattern too complex")
      | Some hit =>
          found ← sql_where condition rest;
          mret (if hit then kr :: found else found)
      end
  end.

(** ** Handlers *)

(** [get_tasks], lines 81-98. *)
Definition get_tasks (args : gmap string string) (w : World) : Response * World :=
  let try : M Response :=
    let search := default "" (args !! "search") in
    let tasks_query := map_to_list (table w) in
    tasks_query ← (if truthy (JStr search)
                   then sql_where (search_hit search) tasks_query
                   else mret tasks_query);
    let tasks := order_by_created_at_desc tasks_query in
    mret {| body := BList ((λ kr, to_dict (load kr.1 kr.2)) <$> tasks); code := 200 |} in
  match try w with
  | (inr r, w') => (r, w')
  | (inl e, w') => ({| body := BFail (str e); code := 500 |}, w')
  end.

Definition required_fields : list string :=
  ["entityName"; "taskType"; "time"; "contactPerson"; "date"; "status"].

(** The loop of lines 107-109: the first field whose value is missing or
    false in Python's sense, if any. *)
Fixpoint first_missing (data : jval) (fields : list string) : M (option string) :=
  match fields with
  | [] => mret None
  | field :: rest =>
      v ← py_get data field;
      if truthy v then first_missing data rest else mret (Some field)
  end.

(** [create_task], lines 101-127. *)
Definition create_task (request : payload) (w : World) : Response * World :=
  let try : M Response :=
    data ← get_json request;
    missing ← first_missing data required_fields;
    match missing with
    | Some field =>
        mret {| body := BFail ("Missing field: " +:+ field); code := 400 |}
    | None =>
        date ← py_item data "date";
        entityName ← py_item data "entityName";
        taskType ← py_item data "taskType";
        time ← py_item data "time";
        contactPerson ← py_item data "contactPerson";
        notes ← py_get data "notes";
        status ← py_item data "status";
        phoneNumber ← py_get data "phoneNumber";
        let new_task :=
          {| Task.id := None;
             Task.date := date;
             Task.entity_name := entityName;
             Task.task_type := taskType;
             Task.time := time;
             Task.contact_person := contactPerson;
             Task.notes := notes;
             Task.status := status;
             Task.phone_number := phoneNumber;
             Task.created_at := None;
             Task.updated_at := None |} in
        k ← commit (Added new_task);
        new_task ← refresh k;
        mret {| body := BData (to_dict new_task) "Task created successfully";
                code := 201 |}
    end in
  match try w with
  | (inr r, w') => (r, w')
  | (inl e, w') => ({| body := BFail (str e); code := 500 |}, rollback w w')
  end.

(** [get_task], lines 130-136. *)
Definition get_task (task_id : Z) (w : World) : Response * World :=
  let try : M Response :=
    '(_, task) ← get_or_404 task_id;
    mret {| body := BTask (to_dict task); code := 200 |} in
  match try w with
  | (inr r, w') => (r, w')
  | (inl e, w') => ({| body := BError (str e); code := 500 |}, w')
  end.

(** [update_task], lines 139-156. *)
Definition update_task (task_id : Z) (request : payload) (w : World)
  : Response * World :=
  let try : M Response :=
    '(loaded, task) ← get_or_404 task_id;
    data ← get_json request;
    has ← py_in "status" data;
    task ← (if (has : bool)
            then v ← py_item data "status"; mret (set_status task v)
            else mret task);
    has ← py_in "entityName" data;
    task ← (if (has : bool)
            then v ← py_item data "entityName"; mret (set_entity_name task v)
            else mret task);
    has ← py_in "notes" data;
    task ← (if (has : bool)
            then v ← py_item data "notes"; mret (set_notes task v)
            else mret task);
    k ← commit (Dirty task_id loaded task);
    task ← refresh k;
    mret {| body := BData (to_dict task) "Task updated successfully"; code := 200 |} in
  match try w with
  | (inr r, w') => (r, w')
  | (inl e, w') => ({| body := BFail (str e); code := 500 |}, rollback w w')
  end.

(** [delete_task], lines 159-168. *)
Definition delete_task (task_id : Z) (w : World) : Response * World :=
  let try : M Response :=
    '(_, task) ← get_or_404 task_id;
    _ ← commit (Deleted task_id);
    mret {| body := BMessage "Task deleted successfully"; code := 200 |} in
  match try w with
  | (inr r, w') => (r, w')
  | (inl e, w') => ({| body := BError (str e); code := 500 |}, rollback w w')
  end.

(** Start-up, lines 48-59: an empty table is seeded with two samples,
    saved in one transaction. *)
Definition sample_tasks : list Task.t :=
  [ {| Task.id := None; Task.date := JStr "2025-06-14";
       Task.entity_name := JStr "ABC Pvt Ltd"; Task.task_type := JStr "Call";
       Task.time := JStr "10:00 AM"; Task.contact_person := JStr "Ravi Kumar";
       Task.notes := JStr "Follow-up call for demo"; Task.status := JStr "Open";
       Task.phone_number := JStr "+91-9876543210";
       Task.created_at := None; Task.updated_at := None |};
    {| Task.id := None; Task.date := JStr "2025-06-15";
       Task.entity_name := JStr "XYZ Ltd"; Task.task_type := JStr "Meeting";
       Task.time := JStr "02:00 PM"; Task.contact_person := JStr "Suresh Sharma";
       Task.notes := JStr "Client presentation"; Task.status := JStr "Closed";
       Task.phone_number := JNull;
       Task.created_at := None; Task.updated_at := None |} ].

Fixpoint bulk_save_objects (objects : list Task.t) : M unit :=
  match objects with
  | [] => mret ()
  | t :: rest => _ ← flush_insert t; bulk_save_objects rest
  end.

Definition startup : M unit :=
  tbl ← get_table;
  if decide (size tbl = 0%nat) then bulk_save_objects sample_tasks else mret ().

(** The world after the first start on an empty database file. *)
Definition initial : World := (startup {| table := ∅; reads := 0 |}).2.

(** ** Requests and runs *)

Inductive request :=
| GET_tasks (args : gmap string string)
| POST_tasks (body : payload)
| GET_task (task_id : Z)
| PATCH_task (task_id : Z) (body : payload)
| DELETE_task (task_id : Z).

(** The rule [/api/tasks/<int:task_id>] matches digits only: a negative
    number reaches no handler, and the framework answers 404 itself. *)
Definition route (task_id : Z) (view : Z → World → Response * World)
  : World → Response * World :=
  if decide (0 ≤ task_id) then view task_id
  else λ w, ({| body := BPage "404 Not Found"; code := 404 |}, w).

Definition handle (r : request) : World → Response * World :=
  match r with
  | GET_tasks args => get_tasks args
  | POST_tasks body => create_task body
  | GET_task task_id => route task_id get_task
  | PATCH_task task_id body => route task_id (λ task_id, update_task task_id body)
  | DELETE_task task_id => route task_id delete_task
  end.

(** Serving a list of requests in order: the responses and the last world. *)
Fixpoint run (reqs : list request) (w : World) : list Response * World :=
  match reqs with
  | [] => ([], w)
  | r :: rest =>
      let '(resp, w1) := handle r w in
      let '(resps, w2) := run rest w1 in
      (resp :: resps, w2)
  end.


End App.

(** ** Derived notions used in the statements *)

(** [data.get(key)] on a dictionary. *)
Definition dict_get (data : gmap string jval) (key : string) : jval :=
  default JNull (data !! key).

(** The members a request supplies: those of its body when that is a
    JSON object, none otherwise. *)
Definition supplied (request : payload) : gmap string jval :=
  match request with
  | Json (JObj data) => data
  | _ => ∅
  end.

(** The object [update_task] hands to the session when the body is a
    dictionary: the loaded object after the three guarded assignments of
    lines 145-150. *)
Definition assigned (data : gmap string jval) (task : Task.t) : Task.t :=
  let task := match data !! "status" with
              | Some v => set_status task v | None => task end in
  let task := match data !! "entityName" with
              | Some v => set_entity_name task v | None => task end in
  match data !! "notes" with
  | Some v => set_notes task v | None => task end.

(** Lines 143-150 on any body: the exception they raise, or the object
    they leave.  In a list or a string a name can be found by [in], and
    then the subscript with that name is a [TypeError]. *)
Definition found_in (data : jval) (key : string) : bool :=
  match data with
  | JArr items =>
      existsb (λ x, match x with JStr s => String.eqb s key | _ => false end) items
  | JStr s => Sql.is_infix (list_ascii_of_string key) (list_ascii_of_string s)
  | _ => false
  end.

Definition assigned_of (request : payload) (task : Task.t) : exn + Task.t :=
  match request with
  | NoJson => inl BadRequest
  | Json (JObj data) => inr (assigned data task)
  | Json ((JArr _ | JStr _) as data) =>
      if found_in data "status" || found_in data "entityName" || found_in data "notes"
      then inl (TypeError "indices must be integers")
      else inr task
  | Json _ => inl (TypeError "argument is not iterable")
  end.

(** The request supplies, for one of the three updatable fields, a value
    other than the stored one. *)
Definition changes (data : gmap string jval) (r : Row.t) : Prop :=
  (∃ v, data !! "status" = Some v ∧ v ≠ JStr (Row.status r))
  ∨ (∃ v, data !! "entityName" = Some v ∧ v ≠ JStr (Row.entity_name r))
  ∨ (∃ v, data !! "notes" = Some v ∧ v ≠ of_text (Row.notes r)).

(** The column holds what the request supplied: the very value, or the
    text the value is stored as. *)
Definition stored_for (v : jval) (column : option string) : Prop :=
  v = of_text column ∨ bind v = inr column.



(** A request that reaches a handler: its id, if it has one, is written
    with digits only. *)
Definition routed (req : request) : Prop :=
  match req with
  | GET_task task_id | PATCH_task task_id _ | DELETE_task task_id => 0 ≤ task_id
  | _ => True
  end.

(** A required field of a create request is missing or false in Python's
    sense: absent, [null], an empty string, list or object, zero or
    [false]. *)
Definition missing (data : gmap string jval) (field : string) : Prop :=
  truthy (dict_get data field) = false.




(** The member, when supplied, is a string or [null]. *)
Definition text_or_null (data : gmap string jval) (key : string) : Prop :=
  ∀ v, data !! key = Some v → v = JNull ∨ ∃ s, v = JStr s.

(** The object [create_task] builds from a dictionary (lines 111-120). *)
Definition new_task_of (data : gmap string jval) : Task.t :=
  {| Task.id := None;
     Task.date := dict_get data "date";
     Task.entity_name := dict_get data "entityName";
     Task.task_type := dict_get data "taskType";
     Task.time := dict_get data "time";
     Task.contact_person := dict_get data "contactPerson";
     Task.notes := dict_get data "notes";
     Task.status := dict_get data "status";
     Task.phone_number := dict_get data "phoneNumber";
     Task.created_at := None;
     Task.updated_at := None |}.

(** The row meets the search condition. *)
Definition hit (search : string) (kr : Z * Row.t) : Prop :=
  search_hit search kr = Some true.

Global Instance hit_dec search kr : Decision (hit search kr).
Proof. unfold hit. apply _. Defined.


Definition keys_positive (tbl : gmap Z Row.t) : Prop :=
  ∀ k, is_Some (tbl !! k) → 0 < k.

(** The data list of a listing response. *)
Definition listing (r : Response) : list TaskDict.t :=
  match body r with BList data => data | _ => [] end.

(** [x] stands before [y] in [l]. *)
Definition before {A} (x y : A) (l : list A) : Prop :=
  ∃ i j : nat, (i < j)%nat ∧ l !! i = Some x ∧ l !! j = Some y.




(** The search term makes a pattern the engine refuses. *)
Definition too_long (search : string) : Prop :=
  Sql.LIKE_PATTERN_LENGTH < Z.of_nat (String.length search) + 2.

Global Instance too_long_dec search : Decision (too_long search).
Proof. unfold too_long. apply _. Defined.

(** A clock that advances by one microsecond per reading, one that runs
    backwards, and a complete create request, for concrete runs. *)
Definition sample_clock (n : nat) : Z := Z.of_nat n.


Definition sample_body : gmap string jval :=
  list_to_map
    [("date", JStr "2025-07-01"); ("entityName", JStr "Acme Corp");
     ("taskType", JStr "Call"); ("time", JStr "09:30 AM");
     ("contactPerson", JStr "Asha Rao"); ("status", JStr "Open")].

Definition sample_request : payload := Json (JObj sample_body).

Definition closing : payload := Json (JObj {["status" := JStr "Closed"]}).

(** A search term of 49999 letters. *)
Definition long_term : string := string_of_list_ascii (repeat "a"%char (Z.to_nat 49999)).

(** Every stored key lies in [1, n]. *)
Definition keys_bounded (n : Z) (tbl : gmap Z Row.t) : Prop :=
  ∀ k, is_Some (tbl !! k) → 0 < k ≤ n.

(** What serving one request can do to the world. *)
Inductive effect (utcnow : nat → Z) (req : request) (w w' : World) : Prop :=
| effect_none :
    table w' = table w → (reads w ≤ reads w')%nat → effect utcnow req w w'
| effect_insert k row :
    next_rowid (table w) = Some k →
    table w' = <[k := row]> (table w) →
    Row.created_at row = Some (utcnow (reads w)) →
    Row.updated_at row = Some (utcnow (S (reads w))) →
    reads w' = S (S (reads w)) →
    effect utcnow req w w'
| effect_update k r r' :
    table w !! k = Some r →
    table w' = <[k := r']> (table w) →
    Row.created_at r' = Row.created_at r →
    Row.updated_at r' = Some (utcnow (reads w)) →
    reads w' = S (reads w) →
    effect utcnow req w w'
| effect_delete k :
    req = DELETE_task k →
    table w' = delete k (table w) →
    reads w' = reads w →
    effect utcnow req w w'.


(** The members of a create request that [create_task] reads. *)
Definition create_keys : list string :=
  ["entityName"; "taskType"; "time"; "contactPerson"; "date"; "status";
   "notes"; "phoneNumber"].

(** Stored [updated_at] values are set and not ahead of the clock. *)
Definition settled (utcnow : nat → Z) (w : World) : Prop :=
  ∀ k r, table w !! k = Some r →
    ∃ u, Row.updated_at r = Some u ∧ u ≤ utcnow (reads w).

(** Both timestamps of every stored row are set. *)
Definition dated (w : World) : Prop :=
  ∀ k r, table w !! k = Some r →
    is_Some (Row.created_at r) ∧ is_Some (Row.updated_at r).

(** * Properties *)

(** ** Pattern matching *)

Example like_ravi : Sql.ilike "Ravi Kumar" "%ravi%" = Some true.
Proof. reflexivity. Qed.

Example like_no_hit : Sql.ilike "Ravi Kumar" "%xyz%" = Some false.
Proof. reflexivity. Qed.

Example like_pct_all : Sql.ilike "XYZ Ltd" "%%%" = Some true.
Proof. reflexivity. Qed.

Example like_und_any : Sql.ilike "ABC Pvt Ltd" "%a_c%" = Some true.
Proof. reflexivity. Qed.

Example like_stops_at_nul :
  Sql.ilike "Suresh Sharma" ("%" +:+ String "a" (String "000" "b") +:+ "%") = Some true.
Proof. reflexivity. Qed.

(** ['_'] takes one character, of however many bytes: the two bytes of
    U+00E9 between [a] and [c]. *)
Example like_und_two_bytes :
  Sql.ilike (String "a" (String "195" (String "169" "c"))) "%a_c%" = Some true.
Proof. reflexivity. Qed.

Section LikeFacts.
Import Sql.

Ltac each_char c := destruct c as [[] [] [] [] [] [] [] []].

Lemma lower_char_idem c : lower_char (lower_char c) = lower_char c.
Proof. each_char c; reflexivity. Qed.

Lemma lower_char_pct c : lower_char c = pct ↔ c = pct.
Proof. each_char c; vm_compute; split; congruence. Qed.

Lemma lower_char_und c : lower_char c = und ↔ c = und.
Proof. each_char c; vm_compute; split; congruence. Qed.

Lemma lower_char_nul c : lower_char c = nul ↔ c = nul.
Proof. each_char c; vm_compute; split; congruence. Qed.

Lemma lower_idem s : lower (lower s) = lower s.
Proof.
  unfold lower. rewrite <- list_fmap_compose.
  apply list_fmap_ext. intros _ c _. apply lower_char_idem.
Qed.

Lemma lower_app s1 s2 : lower (s1 ++ s2) = lower s1 ++ lower s2.
Proof. apply fmap_app. Qed.

Lemma lower_length s : length (lower s) = length s.
Proof. apply length_fmap. Qed.

Lemma lower_cons c s : lower (c :: s) = lower_char c :: lower s.
Proof. reflexivity. Qed.

Lemma plain_lower t : plain t → plain (lower t).
Proof.
  unfold plain, lower. intros H. apply Forall_fmap.
  eapply Forall_impl; [exact H|]. intros c (Hp & Hu & Hn). simpl.
  rewrite lower_char_pct, lower_char_und, lower_char_nul. done.
Qed.

Lemma list_ascii_of_string_app s1 s2 :
  list_ascii_of_string (s1 +:+ s2) = list_ascii_of_string s1 ++ list_ascii_of_string s2.
Proof. induction s1 as [|c s1 IH]; simpl; [done|]. by rewrite IH. Qed.

Lemma list_ascii_of_string_length s :
  length (list_ascii_of_string s) = String.length s.
Proof. induction s as [|c s IH]; simpl; [done|]. by rewrite IH. Qed.

(** Reading characters. *)
Lemma utf8_read_cons pending b s :
  utf8_read pending (b :: s) =
  match pending with
  | Some c =>
      if is_continuation (N_of_ascii b)
      then utf8_read (Some (utf8_step c (N_of_ascii b))) s
      else utf8_value c ::
           (if (N_of_ascii b =? 0)%N then []
            else if (N_of_ascii b <? 192)%N then N_of_ascii b :: utf8_read None s
            else utf8_read (Some (utf8_trans1 (N_of_ascii b))) s)
  | None =>
      if (N_of_ascii b =? 0)%N then []
      else if (N_of_ascii b <? 192)%N then N_of_ascii b :: utf8_read None s
      else utf8_read (Some (utf8_trans1 (N_of_ascii b))) s
  end.
Proof. reflexivity. Qed.

Lemma utf8_value_ge c : (128 ≤ utf8_value c)%N.
Proof.
  unfold utf8_value. destruct (N.ltb_spec c 128); cbn [orb]; [lia|].
  destruct (_ || _); lia.
Qed.

Lemma tolower_high c : (128 ≤ c)%N → tolower c = c.
Proof.
  intros H. unfold tolower. destruct (N.leb_spec c 90); [lia|].
  by rewrite andb_false_r.
Qed.

Lemma tolower_lower_char b :
  tolower (N_of_ascii (lower_char b)) = N_of_ascii (lower_char b).
Proof. each_char b; reflexivity. Qed.

Lemma N_of_ascii_nul b : (N_of_ascii b =? 0)%N = true ↔ b = nul.
Proof. each_char b; vm_compute; split; congruence. Qed.

Lemma N_of_ascii_pct b : N_of_ascii b = match_all ↔ b = pct.
Proof. each_char b; vm_compute; split; congruence. Qed.

Lemma N_of_ascii_und b : N_of_ascii b = match_one ↔ b = und.
Proof. each_char b; vm_compute; split; congruence. Qed.

(** Every character of a lowered text is its own lower case. *)
Lemma utf8_read_lower pending s :
  Forall (λ c, tolower c = c) (utf8_read pending (lower s)).
Proof.
  revert pending. induction s as [|b s IH]; intros pending.
  - destruct pending; repeat constructor. apply tolower_high, utf8_value_ge.
  - rewrite lower_cons, utf8_read_cons.
    assert (Hrest :
      Forall (λ c, tolower c = c)
        (if (N_of_ascii (lower_char b) =? 0)%N then []
         else if (N_of_ascii (lower_char b) <? 192)%N
              then N_of_ascii (lower_char b) :: utf8_read None (lower s)
              else utf8_read (Some (utf8_trans1 (N_of_ascii (lower_char b)))) (lower s))).
    { destruct (_ =? 0)%N; [constructor|]. destruct (_ <? 192)%N; [|apply IH].
      constructor; [apply tolower_lower_char|apply IH]. }
    destruct pending as [c|]; [|done].
    destruct (is_continuation _); [apply IH|].
    constructor; [apply tolower_high, utf8_value_ge|done].
Qed.

(** A term without pattern characters reads as characters none of which
    is one. *)
Lemma utf8_read_plain pending t :
  plain t →
  Forall (λ c, c ≠ match_all ∧ c ≠ match_one) (utf8_read pending t).
Proof.
  assert (Hv : ∀ c, utf8_value c ≠ match_all ∧ utf8_value c ≠ match_one).
  { intros c. pose proof (utf8_value_ge c). unfold match_all, match_one. lia. }
  intros Ht. revert pending. induction Ht as [|b t (Hp & Hu & Hn) Ht IH]; intros pending.
  - destruct pending; repeat constructor; apply Hv.
  - rewrite utf8_read_cons.
    assert (Hrest :
      Forall (λ c, c ≠ match_all ∧ c ≠ match_one)
        (if (N_of_ascii b =? 0)%N then []
         else if (N_of_ascii b <? 192)%N then N_of_ascii b :: utf8_read None t
              else utf8_read (Some (utf8_trans1 (N_of_ascii b))) t)).
    { destruct (_ =? 0)%N; [constructor|]. destruct (_ <? 192)%N; [|apply IH].
      constructor; [|apply IH]. by rewrite N_of_ascii_pct, N_of_ascii_und. }
    destruct pending as [c|]; [|done].
    destruct (is_continuation _); [apply IH|].
    constructor; [apply Hv|done].
Qed.

(** A pattern character ends whatever character is being read and is
    read as itself. *)
Lemma utf8_read_wildcard pending b q :
  b = pct ∨ b = und →
  utf8_read pending (b :: q) = utf8_flush pending ++ N_of_ascii b :: chars q.
Proof. intros [->| ->]; destruct pending; reflexivity. Qed.

Lemma utf8_read_app_wildcard pending t b q :
  plain t → b = pct ∨ b = und →
  utf8_read pending (t ++ b :: q) = utf8_read pending t ++ N_of_ascii b :: chars q.
Proof.
  intros Ht Hb. revert pending.
  induction Ht as [|c t (_ & _ & Hn) Ht IH]; intros pending.
  - by apply utf8_read_wildcard.
  - rewrite <- app_comm_cons, !utf8_read_cons.
    assert (Hc : (N_of_ascii c =? 0)%N = false).
    { destruct (N_of_ascii c =? 0)%N eqn:E; [|done]. by apply N_of_ascii_nul in E. }
    rewrite Hc. destruct pending as [p|].
    + destruct (is_continuation _); [apply IH|].
      destruct (_ <? 192)%N; by rewrite IH.
    + destruct (_ <? 192)%N; by rewrite IH.
Qed.

(** The two defining equations of the matcher. *)
Lemma like_pct_eq p s :
  like (match_all :: p) s
  = like p s || match s with [] => false | _ :: s' => like (match_all :: p) s' end.
Proof. destruct s; reflexivity. Qed.

Lemma like_char_eq c p s :
  c ≠ match_all →
  like (c :: p) s =
  match s with
  | [] => false
  | d :: s' => ((c =? match_one)%N || (tolower c =? tolower d)%N) && like p s'
  end.
Proof.
  intros Hc. cbn [like]. destruct (N.eqb_spec c match_all) as [->|_]; [done|].
  by destruct s.
Qed.

Lemma like_pct_iff p s :
  like (match_all :: p) s = true ↔ ∃ a b, s = a ++ b ∧ like p b = true.
Proof.
  induction s as [|d s IH]; rewrite like_pct_eq.
  - rewrite orb_false_r. split.
    + intros H. by exists [], [].
    + intros (a & b & Hs & H). symmetry in Hs.
      apply app_eq_nil in Hs as [-> ->]. done.
  - rewrite orb_true_iff, IH. split.
    + intros [H | (a & b & -> & H)].
      * by exists [], (d :: s).
      * by exists (d :: a), b.
    + intros (a & b & Hs & H). destruct a as [|d' a]; simpl in Hs.
      * subst b. by left.
      * injection Hs as <- ->. right. by exists a, b.
Qed.

Lemma like_pct_last s : like [match_all] s = true.
Proof. apply like_pct_iff. exists s, []. by rewrite app_nil_r. Qed.


(** A pattern free of ['%'] and ['_'] matches exactly the texts equal to
    it up to ASCII case. *)
Lemma like_plain_app t q s :
  Forall (λ c, c ≠ match_all ∧ c ≠ match_one) t →
  like (t ++ q) s = true
  ↔ ∃ m r, s = m ++ r ∧ tolower <$> m = tolower <$> t ∧ like q r = true.
Proof.
  intros Ht. revert s. induction Ht as [|c t (Hp & Hu) Ht IH]; intros s; simpl app.
  - split.
    + intros H. by exists [], s.
    + intros (m & r & -> & Hm & H). destruct m; [done|discriminate].
  - rewrite like_char_eq by done. destruct s as [|d s].
    + split; [done|]. intros (m & r & Hs & Hm & _).
      destruct m; [discriminate|discriminate].
    + destruct (N.eqb_spec c match_one) as [->|_]; [done|]. cbn [orb].
      rewrite andb_true_iff, IH. split.
      * intros [Hcd (m & r & -> & Hm & H)].
        apply N.eqb_eq in Hcd.
        exists (d :: m), r. rewrite !fmap_cons. by rewrite Hm, Hcd.
      * intros (m & r & Hs & Hm & H). destruct m as [|d' m]; [discriminate|].
        rewrite !fmap_cons in Hm. simpl in Hs. injection Hs as <- ->.
        injection Hm as Hcd Hm.
        split; [by apply N.eqb_eq|]. by exists m, r.
Qed.

(** A piece of a lowered text is lowered. *)
Lemma lower_piece (x a m b : list N) :
  Forall (λ c, tolower c = c) x → x = a ++ m ++ b → tolower <$> m = m.
Proof.
  intros Hx ->. apply Forall_app in Hx as [_ Hx]. apply Forall_app in Hx as [Hx _].
  induction Hx as [|c m Hc _ IH]; [done|]. by rewrite fmap_cons, Hc, IH.
Qed.

Lemma folded_lower s : tolower <$> folded s = folded s.
Proof.
  apply (lower_piece (folded s) [] _ []); [apply utf8_read_lower|].
  by rewrite app_nil_r.
Qed.

(** The query's pattern, ['%'] + search + ['%'], as the engine runs it. *)
Lemma ilike_eq column search :
  ilike column ("%" +:+ search +:+ "%") =
  if decide (LIKE_PATTERN_LENGTH < Z.of_nat (String.length search) + 2) then None
  else Some (like (match_all :: utf8_read None (lower (list_ascii_of_string search) ++ [pct]))
                  (folded column)).
Proof.
  unfold ilike, like_fn.
  rewrite !list_ascii_of_string_app, !lower_app, !length_app, !lower_length,
    !list_ascii_of_string_length.
  change (String.length "%") with 1%nat.
  replace (Z.of_nat (1 + (String.length search + 1)))
    with (Z.of_nat (String.length search) + 2) by lia.
  destruct (decide _); [done|]. reflexivity.
Qed.

Lemma ilike_too_long column search :
  too_long search → ilike column ("%" +:+ search +:+ "%") = None.
Proof. intros H. rewrite ilike_eq. by rewrite decide_True. Qed.

(** On a search term without pattern characters the pattern is a
    case-blind substring test on the characters of the text. *)
Lemma ilike_plain_contains column search :
  ¬ too_long search →
  plain (list_ascii_of_string search) →
  ∃ hit, ilike column ("%" +:+ search +:+ "%") = Some hit
         ∧ (hit = true ↔ contains_ci search column).
Proof.
  intros Hfit Hplain. rewrite ilike_eq, decide_False by done.
  eexists. split; [reflexivity|]. unfold contains_ci.
  assert (Hpt : plain (lower (list_ascii_of_string search))) by by apply plain_lower.
  rewrite (utf8_read_app_wildcard None _ pct [] Hpt) by by left.
  change (chars []) with (@nil N). change (N_of_ascii pct) with match_all.
  change (utf8_read None (lower (list_ascii_of_string search))) with (folded search).
  pose proof (utf8_read_plain None _ Hpt) as HT.
  change (utf8_read None (lower (list_ascii_of_string search))) with (folded search) in HT.
  pose proof (utf8_read_lower None (list_ascii_of_string column)) as Hx.
  change (utf8_read None (lower (list_ascii_of_string column))) with (folded column) in Hx.
  rewrite like_pct_iff. split.
  - intros (a & b & Hab & H).
    apply like_plain_app in H as (m & r & -> & Hm & _); [|done].
    exists a, r. rewrite Hab. f_equal. f_equal.
    rewrite (lower_piece _ _ _ _ Hx Hab), folded_lower in Hm. done.
  - intros (a & b & Hab). exists a, (folded search ++ b). split; [done|].
    apply like_plain_app; [done|].
    exists (folded search), b. split; [done|]. split; [done|]. apply like_pct_last.
Qed.



(** The pattern built from ["%"] alone matches every text. *)
Lemma ilike_pct_any column : ilike column ("%" +:+ "%" +:+ "%") = Some true.
Proof.
  rewrite ilike_eq. rewrite decide_False by (vm_compute; discriminate).
  f_equal.
  change (utf8_read None (lower (list_ascii_of_string "%") ++ [pct]))
    with [match_all; match_all].
  apply like_pct_iff. eexists _, []. split; [by rewrite app_nil_r|reflexivity].
Qed.

(** Two terms that are equal once lowered make the same test. *)
Lemma ilike_lowered column s s' :
  lower (list_ascii_of_string s) = lower (list_ascii_of_string s') →
  ilike column ("%" +:+ s +:+ "%") = ilike column ("%" +:+ s' +:+ "%").
Proof.
  intros H. unfold ilike. by rewrite !list_ascii_of_string_app, !lower_app, H.
Qed.

End LikeFacts.

(** ** What each handler computes *)

Section HandlerFacts.
Variable utcnow : nat → Z.

Lemma rollback_same w : rollback w w = w.
Proof. by destruct w. Qed.

Lemma bind_eq {A B} (m : M A) (f : A → M B) w :
  (m ≫= f) w =
  match m w with
  | (inr a, w') => f a w'
  | (inl e, w') => (inl e, w')
  end.
Proof. reflexivity. Qed.

Lemma bind_lift {A B} (r : exn + A) (f : A → M B) w :
  (lift r ≫= f) w =
  match r with
  | inr a => f a w
  | inl e => (inl e, w)
  end.
Proof. rewrite bind_eq. unfold lift. by destruct r. Qed.

Lemma get_or_404_eq task_id w :
  get_or_404 task_id w =
  match table w !! task_id with
  | Some r => (inr (r, load task_id r), w)
  | None => (inl (lookup_failure task_id), w)
  end.
Proof.
  unfold get_or_404, get_table, raise. rewrite bind_eq.
  by destruct (table w !! task_id).
Qed.

Lemma refresh_eq k w :
  refresh k w =
  match table w !! k with
  | Some r => (inr (load k r), w)
  | None => (inl (KeyError "id"), w)
  end.
Proof.
  unfold refresh, get_table, raise. rewrite bind_eq.
  by destruct (table w !! k).
Qed.

Lemma get_task_eq task_id w :
  get_task task_id w =
  match table w !! task_id with
  | Some r => ({| body := BTask (to_dict (load task_id r)); code := 200 |}, w)
  | None => ({| body := BError (str (lookup_failure task_id)); code := 500 |}, w)
  end.
Proof.
  unfold get_task. cbn zeta. rewrite bind_eq, get_or_404_eq.
  by destruct (table w !! task_id).
Qed.

Lemma delete_task_eq task_id w :
  delete_task utcnow task_id w =
  match table w !! task_id with
  | Some r => ({| body := BMessage "Task deleted successfully"; code := 200 |},
               {| table := delete task_id (table w); reads := reads w |})
  | None => ({| body := BError (str (lookup_failure task_id)); code := 500 |}, w)
  end.
Proof.
  unfold delete_task. cbn zeta. rewrite bind_eq, get_or_404_eq.
  destruct (table w !! task_id); [done|]. by rewrite rollback_same.
Qed.

(** The two statements that write. *)
Lemma flush_update_eq k loaded t w :
  flush_update utcnow k loaded t w =
  if unchanged loaded t then (inr k, w)
  else
    match update_values loaded t (utcnow (reads w)) with
    | inr row => (inr k, {| table := <[k := row]> (table w); reads := S (reads w) |})
    | inl e => (inl e, {| table := table w; reads := S (reads w) |})
    end.
Proof.
  unfold flush_update. destruct (unchanged loaded t); [done|].
  rewrite bind_eq. unfold now at 1. cbn beta iota. rewrite bind_lift.
  by destruct (update_values _ _ _).
Qed.

Lemma flush_insert_eq t w :
  Task.id t = None → Task.created_at t = None → Task.updated_at t = None →
  flush_insert utcnow t w =
  match insert_values t (utcnow (reads w)) (utcnow (S (reads w))) with
  | inr row =>
      match next_rowid (table w) with
      | Some k => (inr k, {| table := <[k := row]> (table w);
                             reads := S (S (reads w)) |})
      | None => (inl DatabaseFull, {| table := table w; reads := S (S (reads w)) |})
      end
  | inl e => (inl e, {| table := table w; reads := S (S (reads w)) |})
  end.
Proof.
  intros Hid Hc Hu. unfold flush_insert. rewrite Hid, Hc, Hu.
  rewrite bind_eq. unfold default_utcnow, now at 1. cbn beta iota.
  rewrite bind_eq. unfold now at 1. cbn beta iota. cbn [table reads].
  rewrite bind_lift. destruct (insert_values _ _ _) as [e|row]; [done|].
  rewrite bind_eq. unfold get_table at 1. cbn beta iota. cbn [table].
  rewrite bind_eq. by destruct (next_rowid (table w)).
Qed.

(** The timestamps of a written row. *)
Lemma insert_values_stamps t c u row :
  insert_values t c u = inr row →
  Row.created_at row = Some c ∧ Row.updated_at row = Some u.
Proof.
  unfold insert_values, mbind, result_bind, mret, result_ret.
  repeat case_match; try done; intros [= <-]; done.
Qed.

Lemma update_values_stamps loaded t u row :
  update_values loaded t u = inr row →
  Row.created_at row = Row.created_at loaded ∧ Row.updated_at row = Some u.
Proof.
  unfold update_values, mbind, result_bind, mret, result_ret.
  repeat case_match; try done; intros [= <-]; done.
Qed.

End HandlerFacts.

Section CreateFacts.
Variable utcnow : nat → Z.

Lemma first_missing_obj data fields w :
  first_missing (JObj data) fields w =
  (inr (List.find (λ field, negb (truthy (dict_get data field))) fields), w).
Proof.
  induction fields as [|field fields IH]; [done|].
  cbn [first_missing List.find]. rewrite bind_eq.
  change (py_get (JObj data) field w) with (inr (A:=exn) (dict_get data field), w).
  cbn beta iota. destruct (truthy (dict_get data field)); [apply IH|done].
Qed.

Lemma py_item_truthy data key w :
  truthy (dict_get data key) = true →
  py_item (JObj data) key w = (inr (dict_get data key), w).
Proof.
  unfold dict_get, py_item. by destruct (data !! key).
Qed.

Lemma find_missing_none data :
  List.find (λ field, negb (truthy (dict_get data field))) required_fields = None →
  ∀ field, field ∈ required_fields → ¬ missing data field.
Proof.
  intros H field Hin Hm. apply list_elem_of_In in Hin.
  pose proof (List.find_none _ _ H field Hin) as Hf. cbn beta in Hf.
  unfold missing in Hm. rewrite Hm in Hf. done.
Qed.

Lemma find_missing_some data field :
  List.find (λ field, negb (truthy (dict_get data field))) required_fields = Some field →
  field ∈ required_fields ∧ missing data field.
Proof.
  intros [Hin Hf]%List.find_some. split; [by apply list_elem_of_In|].
  unfold missing. by destruct (truthy (dict_get data field)).
Qed.

Lemma not_missing_find data :
  (∀ field, field ∈ required_fields → ¬ missing data field) →
  List.find (λ field, negb (truthy (dict_get data field))) required_fields = None.
Proof.
  intros Hall.
  destruct (List.find _ required_fields) as [field|] eqn:Hfind; [|done].
  apply find_missing_some in Hfind as [Hin Hm]. by destruct (Hall field Hin).
Qed.

(** A create request with a dictionary for a body. *)
Lemma create_task_obj_eq data w :
  create_task utcnow (Json (JObj data)) w =
  match List.find (λ field, negb (truthy (dict_get data field))) required_fields with
  | Some field =>
      ({| body := BFail ("Missing field: " +:+ field); code := 400 |}, w)
  | None =>
      match insert_values (new_task_of data) (utcnow (reads w)) (utcnow (S (reads w))) with
      | inr row =>
          match next_rowid (table w) with
          | Some k =>
              ({| body := BData (to_dict (load k row)) "Task created successfully";
                  code := 201 |},
               {| table := <[k := row]> (table w); reads := S (S (reads w)) |})
          | None =>
              ({| body := BFail (str DatabaseFull); code := 500 |},
               {| table := table w; reads := S (S (reads w)) |})
          end
      | inl e =>
          ({| body := BFail (str e); code := 500 |},
           {| table := table w; reads := S (S (reads w)) |})
      end
  end.
Proof.
  unfold create_task. cbn zeta. rewrite bind_eq.
  change (get_json (Json (JObj data)) w) with (inr (A:=exn) (JObj data), w).
  cbn beta iota. rewrite bind_eq, first_missing_obj. cbn beta iota.
  destruct (List.find _ required_fields) as [field|] eqn:Hfind; [done|].
  pose proof (find_missing_none _ Hfind) as Hall.
  assert (Hf : ∀ field, field ∈ required_fields → truthy (dict_get data field) = true).
  { intros f Hf. specialize (Hall f Hf). unfold missing in Hall.
    by destruct (truthy (dict_get data f)). }
  assert (H1 := Hf "entityName"). assert (H2 := Hf "taskType").
  assert (H3 := Hf "time"). assert (H4 := Hf "contactPerson").
  assert (H5 := Hf "date"). assert (H6 := Hf "status").
  unfold required_fields in H1, H2, H3, H4, H5, H6.
  rewrite !elem_of_cons in H1, H2, H3, H4, H5, H6.
  specialize (H1 ltac:(auto 10)). specialize (H2 ltac:(auto 10)).
  specialize (H3 ltac:(auto 10)). specialize (H4 ltac:(auto 10)).
  specialize (H5 ltac:(auto 10)). specialize (H6 ltac:(auto 10)).
  rewrite bind_eq, (py_item_truthy _ _ _ H5). cbn beta iota.
  rewrite bind_eq, (py_item_truthy _ _ _ H1). cbn beta iota.
  rewrite bind_eq, (py_item_truthy _ _ _ H2). cbn beta iota.
  rewrite bind_eq, (py_item_truthy _ _ _ H3). cbn beta iota.
  rewrite bind_eq, (py_item_truthy _ _ _ H4). cbn beta iota.
  rewrite bind_eq.
  change (py_get (JObj data) "notes" w) with (inr (A:=exn) (dict_get data "notes"), w).
  cbn beta iota.
  rewrite bind_eq, (py_item_truthy _ _ _ H6). cbn beta iota.
  rewrite bind_eq.
  change (py_get (JObj data) "phoneNumber" w)
    with (inr (A:=exn) (dict_get data "phoneNumber"), w).
  cbn beta iota. fold (new_task_of data).
  rewrite bind_eq. unfold commit. rewrite flush_insert_eq by done.
  destruct (insert_values _ _ _) as [e|row]; [done|].
  destruct (next_rowid (table w)) as [k|]; [|done].
  rewrite bind_eq, refresh_eq. cbn [table]. by rewrite lookup_insert_eq.
Qed.

(** A create request with any other body. *)
Lemma create_task_not_obj request w :
  (∀ data, request ≠ Json (JObj data)) →
  ∃ e, create_task utcnow request w = ({| body := BFail (str e); code := 500 |}, w).
Proof.
  intros Hno. destruct w as [tbl rd]. destruct request as [|v].
  { exists BadRequest. reflexivity. }
  destruct v; try (by destruct (Hno members));
    (exists (AttributeError "object has no attribute 'get'"); reflexivity).
Qed.

(** Every outcome of a create request. *)
Lemma create_task_cases request w :
  (∃ field, create_task utcnow request w =
      ({| body := BFail ("Missing field: " +:+ field); code := 400 |}, w))
  ∨ (∃ e w', create_task utcnow request w = ({| body := BFail (str e); code := 500 |}, w')
       ∧ table w' = table w ∧ (reads w ≤ reads w')%nat)
  ∨ (∃ k row,
       next_rowid (table w) = Some k
       ∧ create_task utcnow request w =
           ({| body := BData (to_dict (load k row)) "Task created successfully";
               code := 201 |},
            {| table := <[k := row]> (table w); reads := S (S (reads w)) |})
       ∧ Row.created_at row = Some (utcnow (reads w))
       ∧ Row.updated_at row = Some (utcnow (S (reads w)))).
Proof.
  assert (Hobj : (∃ data, request = Json (JObj data)) ∨ ∀ data, request ≠ Json (JObj data)).
  { destruct request as [|[]]; eauto. }
  destruct Hobj as [[data ->]|Hno].
  - rewrite create_task_obj_eq.
    destruct (List.find _ required_fields) as [field|]; [left; eauto|].
    destruct (insert_values _ _ _) as [e|row] eqn:Hrow.
    { right. left. eexists _, _. split; [done|]. cbn. split; [done|lia]. }
    destruct (next_rowid (table w)) as [k|] eqn:Hk.
    + right. right. exists k, row. apply insert_values_stamps in Hrow as [Hc Hu]. done.
    + right. left. eexists _, _. split; [done|]. cbn. split; [done|lia].
  - destruct (create_task_not_obj request w Hno) as (e & ->).
    right. left. eexists _, _. split; [done|]. split; [done|lia].
Qed.

End CreateFacts.

Section UpdateFacts.
Variable utcnow : nat → Z.

Lemma same_as_loaded_iff v old : same_as_loaded v old = true ↔ v = of_text old.
Proof.
  destruct v, old as [s'|]; cbn; try (split; [discriminate|discriminate]);
    try (split; [done|done]).
  rewrite bool_decide_eq_true. split; [by intros ->|by intros [= ->]].
Qed.

Lemma same_as_loaded_refl old : same_as_loaded (of_text old) old = true.
Proof. by apply same_as_loaded_iff. Qed.

Lemma same_as_loaded_str s : same_as_loaded (JStr s) (Some s) = true.
Proof. apply (same_as_loaded_refl (Some s)). Qed.

Lemma set_value_loaded old : set_value (of_text old) old = inr old.
Proof. unfold set_value. by rewrite same_as_loaded_refl. Qed.

Lemma set_value_str s : set_value (JStr s) (Some s) = inr (Some s).
Proof. apply (set_value_loaded (Some s)). Qed.

Lemma py_in_obj key m w :
  py_in key (JObj m) w = (inr (bool_decide (is_Some (m !! key))), w).
Proof. reflexivity. Qed.

Lemma assign_step key m (f : Task.t → jval → Task.t) task w :
  (if bool_decide (is_Some (m !! key))
   then v ← py_item (JObj m) key; mret (f task v) else mret task) w
  = (inr (match m !! key with Some v => f task v | None => task end), w).
Proof.
  unfold py_item. destruct (m !! key) as [v|].
  - rewrite bool_decide_eq_true_2 by eauto. reflexivity.
  - rewrite bool_decide_eq_false_2 by (by intros [? ?]). reflexivity.
Qed.

Lemma assign_step_seq (has : bool) data key (f : Task.t → jval → Task.t) task w :
  (∀ m, data ≠ JObj m) →
  (if has then v ← py_item data key; mret (f task v) else mret task) w
  = (if has then inl (TypeError "indices must be integers") else inr task, w).
Proof.
  intros Hno. destruct has; [|reflexivity].
  destruct data; try reflexivity. by destruct (Hno members).
Qed.

(** Lines 143-150 leave the world alone and compute [assigned_of]. *)
Lemma update_task_eq task_id request w :
  update_task utcnow task_id request w =
  match table w !! task_id with
  | None => ({| body := BFail (str (lookup_failure task_id)); code := 500 |}, w)
  | Some r =>
      match assigned_of request (load task_id r) with
      | inl e => ({| body := BFail (str e); code := 500 |}, w)
      | inr t =>
          if unchanged r t
          then ({| body := BData (to_dict (load task_id r)) "Task updated successfully";
                   code := 200 |}, w)
          else
            match update_values r t (utcnow (reads w)) with
            | inr r' =>
                ({| body := BData (to_dict (load task_id r')) "Task updated successfully";
                    code := 200 |},
                 {| table := <[task_id := r']> (table w); reads := S (reads w) |})
            | inl e =>
                ({| body := BFail (str e); code := 500 |},
                 {| table := table w; reads := S (reads w) |})
            end
      end
  end.
Proof.
  unfold update_task. cbn zeta. rewrite bind_eq, get_or_404_eq.
  destruct (table w !! task_id) as [r|] eqn:Hr; [|by rewrite rollback_same].
  cbn beta iota. rewrite bind_eq.
  assert (Hcommit : ∀ t,
    match
      (commit utcnow (Dirty task_id r t)
       ≫= λ k, refresh k
       ≫= λ task, mret {| body := BData (to_dict task) "Task updated successfully";
                           code := 200 |}) w
    with
    | (inl e, w') => ({| body := BFail (str e); code := 500 |}, rollback w w')
    | (inr resp, w') => (resp, w')
    end =
    if unchanged r t
    then ({| body := BData (to_dict (load task_id r)) "Task updated successfully";
             code := 200 |}, w)
    else
      match update_values r t (utcnow (reads w)) with
      | inr r' =>
          ({| body := BData (to_dict (load task_id r')) "Task updated successfully";
              code := 200 |},
           {| table := <[task_id := r']> (table w); reads := S (reads w) |})
      | inl e =>
          ({| body := BFail (str e); code := 500 |},
           {| table := table w; reads := S (reads w) |})
      end).
  { intros t. rewrite bind_eq. unfold commit. rewrite flush_update_eq.
    destruct (unchanged r t).
    - rewrite bind_eq, refresh_eq, Hr. reflexivity.
    - destruct (update_values _ _ _) as [e|r']; [reflexivity|].
      rewrite bind_eq, refresh_eq. cbn [table]. by rewrite lookup_insert_eq. }
  destruct request as [|data].
  { cbn [get_json assigned_of]. unfold raise. by rewrite rollback_same. }
  change (get_json (Json data) w) with (inr (A:=exn) data, w). cbn beta iota.
  assert (Hkind : (∃ m, data = JObj m) ∨ (∀ m, data ≠ JObj m)).
  { destruct data; eauto. }
  destruct Hkind as [[m ->]|Hno].
  - rewrite bind_eq, py_in_obj. cbn beta iota. rewrite bind_eq, assign_step. cbn beta iota.
    rewrite bind_eq, py_in_obj. cbn beta iota. rewrite bind_eq, assign_step. cbn beta iota.
    rewrite bind_eq, py_in_obj. cbn beta iota. rewrite bind_eq, assign_step. cbn beta iota.
    cbn [assigned_of]. fold (assigned m (load task_id r)). apply Hcommit.
  - assert (Hseq : (∃ l, data = JArr l) ∨ (∃ s, data = JStr s)
                   ∨ (∀ key, py_in key data w = (inl (TypeError "argument is not iterable"), w))
                     ∧ assigned_of (Json data) (load task_id r)
                       = inl (TypeError "argument is not iterable")).
    { destruct data; eauto; try (right; right; split; [intros key|]; reflexivity).
      by destruct (Hno members). }
    assert (Hin : (∃ l, data = JArr l) ∨ (∃ s, data = JStr s) →
                  (∀ key, py_in key data w = (inr (found_in data key), w))
                  ∧ assigned_of (Json data) (load task_id r)
                    = if found_in data "status" || found_in data "entityName"
                         || found_in data "notes"
                      then inl (TypeError "indices must be integers")
                      else inr (load task_id r)).
    { intros [[l ->]|[s ->]]; split; reflexivity. }
    destruct Hseq as [Hl|[Hs|[Herr ->]]].
    3:{ rewrite bind_eq, Herr. cbn beta iota. by rewrite rollback_same. }
    all: destruct Hin as [Hpy ->]; [by eauto|].
    all: rewrite bind_eq, Hpy; cbn beta iota;
         rewrite bind_eq, (assign_step_seq _ _ _ _ _ _ Hno);
         destruct (found_in data "status"); cbn beta iota;
         [by rewrite rollback_same|];
         rewrite bind_eq, Hpy; cbn beta iota;
         rewrite bind_eq, (assign_step_seq _ _ _ _ _ _ Hno);
         destruct (found_in data "entityName"); cbn beta iota;
         [by rewrite rollback_same|];
         rewrite bind_eq, Hpy; cbn beta iota;
         rewrite bind_eq, (assign_step_seq _ _ _ _ _ _ Hno);
         destruct (found_in data "notes"); cbn beta iota;
         [by rewrite rollback_same|];
         cbn [orb]; apply Hcommit.
Qed.

End UpdateFacts.

Section AssignedFacts.
Variable utcnow : nat → Z.

Lemma assigned_of_supplied request task t :
  assigned_of request task = inr t → t = assigned (supplied request) task.
Proof.
  assert (Hempty : assigned ∅ task = task).
  { unfold assigned. by rewrite !lookup_empty. }
  destruct request as [|[]]; unfold assigned_of, supplied; try done.
  - destruct (_ || _ || _); [done|]. intros [= <-]. by rewrite Hempty.
  - destruct (_ || _ || _); [done|]. intros [= <-]. by rewrite Hempty.
  - by intros [= <-].
Qed.

Lemma assigned_status data task_id r :
  Task.status (assigned data (load task_id r)) =
  default (JStr (Row.status r)) (data !! "status").
Proof.
  unfold assigned.
  by destruct (data !! "status"), (data !! "entityName"), (data !! "notes").
Qed.

Lemma assigned_entity_name data task_id r :
  Task.entity_name (assigned data (load task_id r)) =
  default (JStr (Row.entity_name r)) (data !! "entityName").
Proof.
  unfold assigned.
  by destruct (data !! "status"), (data !! "entityName"), (data !! "notes").
Qed.

Lemma assigned_notes data task_id r :
  Task.notes (assigned data (load task_id r)) =
  default (of_text (Row.notes r)) (data !! "notes").
Proof.
  unfold assigned.
  by destruct (data !! "status"), (data !! "entityName"), (data !! "notes").
Qed.

Lemma assigned_others data task_id r :
  Task.date (assigned data (load task_id r)) = JStr (Row.date r)
  ∧ Task.task_type (assigned data (load task_id r)) = JStr (Row.task_type r)
  ∧ Task.time (assigned data (load task_id r)) = JStr (Row.time r)
  ∧ Task.contact_person (assigned data (load task_id r)) = JStr (Row.contact_person r)
  ∧ Task.phone_number (assigned data (load task_id r)) = of_text (Row.phone_number r).
Proof.
  unfold assigned.
  by destruct (data !! "status"), (data !! "entityName"), (data !! "notes").
Qed.

(** A do-nothing field set is one that changes no stored value. *)
Lemma unchanged_assigned data task_id r :
  unchanged r (assigned data (load task_id r)) = true ↔ ¬ changes data r.
Proof.
  unfold unchanged.
  destruct (assigned_others data task_id r) as (-> & -> & -> & -> & ->).
  rewrite assigned_status, assigned_entity_name, assigned_notes.
  rewrite !same_as_loaded_str, same_as_loaded_refl.
  cbn [andb]. rewrite andb_true_r, !andb_true_iff, !same_as_loaded_iff.
  unfold changes. cbn [of_text].
  assert (Hdec : ∀ v old, v = of_text old ∨ v ≠ of_text old).
  { intros v old. destruct (same_as_loaded v old) eqn:S.
    - left. by apply same_as_loaded_iff.
    - right. intros E. apply same_as_loaded_iff in E. congruence. }
  split.
  - intros (((((He & _) & _) & _) & Hn) & Hs)
      [(v & Hv & Hne)|[(v & Hv & Hne)|(v & Hv & Hne)]].
    + rewrite Hv in Hs. done.
    + rewrite Hv in He. done.
    + rewrite Hv in Hn. done.
  - intros Hno. repeat split.
    + destruct (data !! "entityName") as [v|] eqn:E; [|done]. cbn.
      destruct (Hdec v (Some (Row.entity_name r))) as [|Hne]; [done|].
      exfalso. apply Hno. right. left. by exists v.
    + destruct (data !! "notes") as [v|] eqn:E; [|done]. cbn.
      destruct (Hdec v (Row.notes r)) as [|Hne]; [done|].
      exfalso. apply Hno. right. right. by exists v.
    + destruct (data !! "status") as [v|] eqn:E; [|done]. cbn.
      destruct (Hdec v (Some (Row.status r))) as [|Hne]; [done|].
      exfalso. apply Hno. left. by exists v.
Qed.

(** Whether a field set changes a row can be told. *)
Lemma changes_or_not data r : ¬ ¬ changes data r → changes data r.
Proof.
  assert (Hdec : ∀ v old, v = of_text old ∨ v ≠ of_text old).
  { intros v old. destruct (same_as_loaded v old) eqn:S.
    - left. by apply same_as_loaded_iff.
    - right. intros E. apply same_as_loaded_iff in E. congruence. }
  intros Hnn. unfold changes in *.
  destruct (data !! "status") as [v1|]; [destruct (Hdec v1 (Some (Row.status r)))
    as [E1|N1]; [|by left; exists v1]|];
  (destruct (data !! "entityName") as [v2|];
    [destruct (Hdec v2 (Some (Row.entity_name r)))
       as [E2|N2]; [|by right; left; exists v2]|]);
  (destruct (data !! "notes") as [v3|];
    [destruct (Hdec v3 (Row.notes r)) as [E3|N3]; [|by right; right; exists v3]|]).
  all: exfalso; apply Hnn;
    intros [(v & Hv & Hne)|[(v & Hv & Hne)|(v & Hv & Hne)]]; simplify_eq; done.
Qed.

(** The UPDATE for the assigned object touches three columns. *)
Lemma update_values_assigned data task_id r u :
  update_values r (assigned data (load task_id r)) u =
  match set_value (default (JStr (Row.entity_name r)) (data !! "entityName"))
          (Some (Row.entity_name r)) with
  | inl e => inl e
  | inr entity_name =>
      match set_value (default (of_text (Row.notes r)) (data !! "notes")) (Row.notes r) with
      | inl e => inl e
      | inr notes =>
          match set_value (default (JStr (Row.status r)) (data !! "status"))
                  (Some (Row.status r)) with
          | inl e => inl e
          | inr status =>
              match entity_name with
              | None => inl (IntegrityError "NOT NULL constraint failed: task.entity_name")
              | Some entity_name =>
                  match status with
                  | None => inl (IntegrityError "NOT NULL constraint failed: task.status")
                  | Some status =>
                      inr {| Row.date := Row.date r; Row.entity_name := entity_name;
                             Row.task_type := Row.task_type r; Row.time := Row.time r;
                             Row.contact_person := Row.contact_person r;
                             Row.notes := notes; Row.status := status;
                             Row.phone_number := Row.phone_number r;
                             Row.created_at := Row.created_at r;
                             Row.updated_at := Some u |}
                  end
              end
          end
      end
  end.
Proof.
  unfold update_values.
  destruct (assigned_others data task_id r) as (-> & -> & -> & -> & ->).
  rewrite assigned_status, assigned_entity_name, assigned_notes.
  rewrite !set_value_str, set_value_loaded.
  unfold mbind, result_bind, mret, result_ret. cbn [not_null].
  destruct (set_value _ (Some (Row.entity_name r))) as [e|[en|]]; try done;
    destruct (set_value _ (Row.notes r)) as [e|nv]; try done;
    destruct (set_value _ (Some (Row.status r))) as [e|[st|]]; done.
Qed.

Lemma set_value_stored v old new : set_value v old = inr new → stored_for v new.
Proof.
  unfold set_value, stored_for. destruct (same_as_loaded v old) eqn:S.
  - intros [= <-]. left. by apply same_as_loaded_iff.
  - by right.
Qed.

Lemma stored_for_text v column :
  v = JNull ∨ (∃ s, v = JStr s) → stored_for v column → v = of_text column.
Proof.
  intros Hv [H|H]; [done|]. destruct Hv as [->|[s ->]]; cbn in H.
  - by injection H as <-.
  - destruct (Sql.has_surrogate _); [done|]. by injection H as <-.
Qed.

(** What a written row holds after an update with field set [data]. *)
Lemma update_values_assigned_ok data task_id r u r' :
  update_values r (assigned data (load task_id r)) u = inr r' →
  Row.date r' = Row.date r ∧ Row.task_type r' = Row.task_type r
  ∧ Row.time r' = Row.time r ∧ Row.contact_person r' = Row.contact_person r
  ∧ Row.phone_number r' = Row.phone_number r
  ∧ Row.created_at r' = Row.created_at r ∧ Row.updated_at r' = Some u
  ∧ stored_for (default (JStr (Row.status r)) (data !! "status")) (Some (Row.status r'))
  ∧ stored_for (default (JStr (Row.entity_name r)) (data !! "entityName"))
      (Some (Row.entity_name r'))
  ∧ stored_for (default (of_text (Row.notes r)) (data !! "notes")) (Row.notes r')
  ∧ (data !! "status" = None → Row.status r' = Row.status r)
  ∧ (data !! "entityName" = None → Row.entity_name r' = Row.entity_name r)
  ∧ (data !! "notes" = None → Row.notes r' = Row.notes r).
Proof.
  rewrite update_values_assigned.
  destruct (set_value _ (Some (Row.entity_name r))) as [e|[en|]] eqn:He; try done;
    destruct (set_value _ (Row.notes r)) as [e|nv] eqn:Hn; try done;
    destruct (set_value _ (Some (Row.status r))) as [e|[st|]] eqn:Hs; try done.
  intros [= <-]. cbn.
  repeat split; try done; try (by eapply set_value_stored).
  - intros E. rewrite E in Hs. cbn in Hs.
    rewrite set_value_str in Hs. by injection Hs.
  - intros E. rewrite E in He. cbn in He.
    rewrite set_value_str in He. by injection He.
  - intros E. rewrite E in Hn. cbn in Hn.
    rewrite set_value_loaded in Hn. by injection Hn.
Qed.

(** Every outcome of an update request on a stored task. *)
Lemma update_task_stored task_id request w r :
  table w !! task_id = Some r →
  (∃ e w', update_task utcnow task_id request w =
             ({| body := BFail (str e); code := 500 |}, w')
           ∧ table w' = table w ∧ (reads w ≤ reads w')%nat)
  ∨ (update_task utcnow task_id request w =
       ({| body := BData (to_dict (load task_id r)) "Task updated successfully";
           code := 200 |}, w)
     ∧ ¬ changes (supplied request) r)
  ∨ (∃ r', update_task utcnow task_id request w =
             ({| body := BData (to_dict (load task_id r')) "Task updated successfully";
                 code := 200 |},
              {| table := <[task_id := r']> (table w); reads := S (reads w) |})
           ∧ changes (supplied request) r
           ∧ update_values r (assigned (supplied request) (load task_id r))
               (utcnow (reads w)) = inr r').
Proof.
  intros Hr. rewrite update_task_eq, Hr.
  destruct (assigned_of request (load task_id r)) as [e|t] eqn:Ht.
  { left. eexists _, _. split; [done|]. split; [done|lia]. }
  apply assigned_of_supplied in Ht as ->.
  destruct (unchanged r _) eqn:Hun.
  - right. left. split; [done|].
    by apply (proj1 (unchanged_assigned (supplied request) task_id r)).
  - destruct (update_values _ _ _) as [e|r'] eqn:Hrow.
    + left. eexists _, _. split; [done|]. cbn. split; [done|lia].
    + right. right. exists r'. split; [done|]. split; [|done].
      apply changes_or_not. intros Hno.
      apply (proj2 (unchanged_assigned (supplied request) task_id r)) in Hno.
      congruence.
Qed.

End AssignedFacts.

Section RunFacts.
Variable utcnow : nat → Z.

Lemma max_list_Z_ge l k : k ∈ l → ∃ m, max_list_Z l = Some m ∧ k ≤ m.
Proof.
  induction l as [|x l IH]; [by intros ?%elem_of_nil|].
  intros [->|Hk]%elem_of_cons; simpl.
  - eexists. split; [done|]. destruct (max_list_Z l); lia.
  - destruct (IH Hk) as (m & -> & Hm). eexists. split; [done|]. lia.
Qed.

Lemma max_list_Z_elem l m : max_list_Z l = Some m → m ∈ l.
Proof.
  revert m. induction l as [|x l IH]; [done|]. simpl. intros m [= <-].
  destruct (max_list_Z l) as [m'|]; [|by left].
  destruct (Z.max_spec x m') as [[_ ->]|[_ ->]]; [right; by apply IH|by left].
Qed.

Lemma elem_of_keys (tbl : gmap Z Row.t) k :
  k ∈ (map_to_list tbl).*1 ↔ is_Some (tbl !! k).
Proof.
  rewrite list_elem_of_fmap. split.
  - intros ([k' r] & -> & H%elem_of_map_to_list). by exists r.
  - intros [r H]. exists (k, r). split; [done|]. by apply elem_of_map_to_list.
Qed.

Lemma next_rowid_fresh tbl k :
  next_rowid tbl = Some k →
  tbl !! k = None ∧ (∀ k', is_Some (tbl !! k') → k' < k) ∧ (keys_positive tbl → 0 < k).
Proof.
  unfold next_rowid, max_rowid. intros H.
  assert (Hlt : ∀ k', is_Some (tbl !! k') → k' < k).
  { intros k' Hk'. apply elem_of_keys, max_list_Z_ge in Hk' as (m & Hm & Hle).
    rewrite Hm in H. case_decide; [|done]. injection H as <-. lia. }
  split; [|split; [done|]].
  - destruct (tbl !! k) eqn:Hk; [|done]. specialize (Hlt k). rewrite Hk in Hlt.
    assert (k < k) by eauto. lia.
  - intros Hpos. destruct (max_list_Z _) as [m|] eqn:Hm; [|injection H as <-; lia].
    case_decide; [|done]. injection H as <-.
    apply max_list_Z_elem, elem_of_keys, Hpos in Hm. lia.
Qed.


Lemma next_rowid_le tbl k n :
  0 ≤ n → keys_bounded n tbl → next_rowid tbl = Some k → 0 < k ≤ n + 1.
Proof.
  unfold next_rowid, max_rowid. intros Hn Hb H.
  destruct (max_list_Z _) as [m|] eqn:Hm; [|injection H as <-; lia].
  case_decide; [|done]. injection H as <-.
  apply max_list_Z_elem, elem_of_keys, Hb in Hm. lia.
Qed.


(** The listing never touches the world. *)
Lemma sql_where_world condition rows w : (sql_where condition rows w).2 = w.
Proof.
  induction rows as [|kr rows IH]; [done|]. cbn [sql_where].
  destruct (condition kr) as [b|]; [|done]. rewrite bind_eq.
  destruct (sql_where condition rows w) as [[e|found] w'] eqn:E; cbn in IH; by subst.
Qed.

Lemma get_tasks_world args w : (get_tasks args w).2 = w.
Proof.
  unfold get_tasks. cbn zeta. rewrite bind_eq.
  destruct (truthy _).
  - pose proof (sql_where_world (search_hit (default "" (args !! "search")))
                  (map_to_list (table w)) w) as Hw.
    destruct (sql_where _ _ w) as [[e|found] w']; cbn in Hw; by subst.
  - reflexivity.
Qed.

Lemma handle_effect req w : effect utcnow req w (handle utcnow req w).2.
Proof.
  destruct req as [args|request|task_id|task_id request|task_id]; cbn [handle];
    unfold route; try (destruct (decide (0 ≤ task_id)); [|by apply effect_none]).
  - rewrite get_tasks_world. by apply effect_none.
  - destruct (create_task_cases utcnow request w)
      as [[field ->]|[(e & w' & -> & Ht & Hrd)|(k & row & Hk & -> & Hc & Hu)]].
    + by apply effect_none.
    + by apply effect_none.
    + by eapply effect_insert.
  - rewrite get_task_eq. destruct (table w !! task_id); by apply effect_none.
  - destruct (table w !! task_id) as [r|] eqn:Hr.
    + destruct (update_task_stored utcnow task_id request w r Hr)
        as [(e & w' & -> & Ht & Hrd)|[[-> _]|(r' & -> & _ & Hrow)]].
      * by apply effect_none.
      * by apply effect_none.
      * apply update_values_stamps in Hrow as [Hc Hu]. by eapply effect_update.
    + rewrite update_task_eq, Hr. by apply effect_none.
  - rewrite delete_task_eq. destruct (table w !! task_id);
      [by eapply effect_delete|by apply effect_none].
Qed.

Lemma run_cons_snd req reqs w :
  (run utcnow (req :: reqs) w).2 = (run utcnow reqs (handle utcnow req w).2).2.
Proof.
  cbn [run]. destruct (handle utcnow req w) as [resp w1]. cbn [snd].
  destruct (run utcnow reqs w1) as [resps w2]. reflexivity.
Qed.

Lemma effect_keys req w w' n :
  0 ≤ n → keys_bounded n (table w) → effect utcnow req w w' →
  keys_bounded (n + 1) (table w').
Proof.
  intros Hn Hb [Ht _|k row Hk Ht _ _ _|k r r' Hr Ht _ _ _|k _ Ht _]; rewrite Ht.
  - intros k Hk. specialize (Hb k Hk). lia.
  - intros k' [x Hk']. destruct (decide (k = k')) as [<-|Hne].
    + by eapply next_rowid_le.
    + rewrite lookup_insert_ne in Hk' by done. assert (0 < k' ≤ n) by eauto. lia.
  - intros k' [x Hk']. destruct (decide (k = k')) as [<-|Hne].
    + assert (0 < k ≤ n) by eauto. lia.
    + rewrite lookup_insert_ne in Hk' by done. assert (0 < k' ≤ n) by eauto. lia.
  - intros k' [x Hk']. apply lookup_delete_Some in Hk' as [_ Hk'].
    assert (0 < k' ≤ n) by eauto. lia.
Qed.

Lemma run_keys reqs w n :
  0 ≤ n → keys_bounded n (table w) →
  keys_bounded (n + Z.of_nat (length reqs)) (table (run utcnow reqs w).2).
Proof.
  revert w n. induction reqs as [|req reqs IH]; intros w n Hn Hb.
  - cbn. by rewrite Z.add_0_r.
  - rewrite run_cons_snd.
    replace (n + Z.of_nat (length (req :: reqs)))
      with ((n + 1) + Z.of_nat (length reqs)) by (cbn [length]; lia).
    apply IH; [lia|]. eapply effect_keys; [done|done|apply handle_effect].
Qed.





Lemma initial_eq :
  initial utcnow =
  {| table :=
       <[2 := {| Row.date := "2025-06-15"; Row.entity_name := "XYZ Ltd";
                 Row.task_type := "Meeting"; Row.time := "02:00 PM";
                 Row.contact_person := "Suresh Sharma";
                 Row.notes := Some "Client presentation"; Row.status := "Closed";
                 Row.phone_number := None;
                 Row.created_at := Some (utcnow 2%nat);
                 Row.updated_at := Some (utcnow 3%nat) |}]>
       (<[1 := {| Row.date := "2025-06-14"; Row.entity_name := "ABC Pvt Ltd";
                  Row.task_type := "Call"; Row.time := "10:00 AM";
                  Row.contact_person := "Ravi Kumar";
                  Row.notes := Some "Follow-up call for demo"; Row.status := "Open";
                  Row.phone_number := Some "+91-9876543210";
                  Row.created_at := Some (utcnow 0%nat);
                  Row.updated_at := Some (utcnow 1%nat) |}]> ∅);
     reads := 4 |}.
Proof. vm_compute. reflexivity. Qed.

Lemma initial_keys : keys_bounded 2 (table (initial utcnow)).
Proof.
  rewrite initial_eq. cbn [table]. intros k [x Hk].
  apply lookup_insert_Some in Hk as [[<- _]|[_ Hk]]; [lia|].
  apply lookup_insert_Some in Hk as [[<- _]|[_ Hk]]; [lia|done].
Qed.


End RunFacts.

(** ** Listing *)

Section ListingFacts.

Global Instance newer_first_total : Total newer_first.
Proof.
  intros [ka ra] [kb rb]. unfold newer_first. cbn.
  destruct (Row.created_at ra), (Row.created_at rb); cbn; try tauto. lia.
Qed.

Global Instance newer_first_trans : Transitive newer_first.
Proof.
  intros [ka ra] [kb rb] [kc rc]. unfold newer_first. cbn.
  destruct (Row.created_at ra), (Row.created_at rb), (Row.created_at rc);
    cbn; try tauto. lia.
Qed.

Global Instance to_dict_load_inj :
  Inj (=) (=) (λ kr : Z * Row.t, to_dict (load kr.1 kr.2)).
Proof.
  intros [k1 r1] [k2 r2].
  destruct r1 as [? ? ? ? ? n1 ? p1 c1 u1], r2 as [? ? ? ? ? n2 ? p2 c2 u2].
  unfold to_dict, load. cbn. intros H.
  destruct n1, n2, p1, p2, c1, c2, u1, u2; cbn in H;
    injection H; intros; simplify_eq; done.
Qed.

Lemma StronglySorted_lookup {A} (R : relation A) (l : list A) i j x y :
  StronglySorted R l → (i < j)%nat → l !! i = Some x → l !! j = Some y → R x y.
Proof.
  intros Hs. revert i j. induction Hs as [|a l Hs IH Hall]; intros i j Hij Hi Hj.
  - done.
  - destruct j as [|j]; [lia|]. cbn in Hj. destruct i as [|i].
    + cbn in Hi. injection Hi as <-. rewrite Forall_forall in Hall.
      apply Hall. by eapply list_elem_of_lookup_2.
    + cbn in Hi. apply (IH i j); [lia|done|done].
Qed.

Lemma truthy_search (search : string) : truthy (JStr search) = true ↔ search ≠ "".
Proof.
  cbn. destruct (String.eqb_spec search ""); cbn; split; congruence.
Qed.


(** The scan under a condition that runs on every row, and under one
    that runs on none. *)
Lemma sql_where_fit condition rows w :
  (∀ kr, kr ∈ rows → is_Some (condition kr)) →
  sql_where condition rows w = (inr (filter (λ kr, condition kr = Some true) rows), w).
Proof.
  induction rows as [|kr rows IH]; [done|]. intros Hall. cbn [sql_where].
  destruct (Hall kr ltac:(by left)) as [b Hb]. rewrite Hb, bind_eq, IH.
  2:{ intros kr' Hin. apply Hall. by right. }
  cbn beta iota. destruct b.
  - by rewrite filter_cons_True.
  - by rewrite filter_cons_False by congruence.
Qed.

Lemma sql_where_refused condition rows w :
  (∀ kr, condition kr = None) → rows ≠ [] →
  sql_where condition rows w
  = (inl (OperationalError "LIKE or GLOB pattern too complex"), w).
Proof.
  intros Hnone Hne. destruct rows as [|kr rows]; [done|]. cbn [sql_where].
  by rewrite Hnone.
Qed.

Lemma search_hit_refused search kr : too_long search → search_hit search kr = None.
Proof. intros H. unfold search_hit. by rewrite !ilike_too_long. Qed.

Lemma search_hit_runs search kr : ¬ too_long search → is_Some (search_hit search kr).
Proof.
  intros H. unfold search_hit. rewrite !ilike_eq, !decide_False by done.
  by eexists.
Qed.

(** What [get_tasks] answers. *)
Lemma get_tasks_eq args w :
  get_tasks args w =
  if decide (default "" (args !! "search") ≠ "" ∧ too_long (default "" (args !! "search"))
             ∧ table w ≠ ∅)
  then ({| body := BFail (str (OperationalError "LIKE or GLOB pattern too complex"));
           code := 500 |}, w)
  else ({| body :=
             BList ((λ kr, to_dict (load kr.1 kr.2)) <$>
                    merge_sort newer_first
                      (if decide (default "" (args !! "search") = "")
                       then map_to_list (table w)
                       else filter (hit (default "" (args !! "search")))
                              (map_to_list (table w))));
           code := 200 |}, w).
Proof.
  unfold get_tasks. cbn zeta. set (search := default "" (args !! "search")).
  rewrite bind_eq. destruct (truthy (JStr search)) eqn:Ht.
  - apply truthy_search in Ht. rewrite (decide_False (P := search = "")) by done.
    destruct (decide (too_long search)) as [Hlong|Hfit].
    + destruct (decide (table w = ∅)) as [He|Hne].
      * rewrite decide_False by tauto. rewrite He, map_to_list_empty. reflexivity.
      * rewrite decide_True by done.
        rewrite sql_where_refused; [done|by intros; apply search_hit_refused|].
        by intros ?%map_to_list_empty_iff.
    + rewrite decide_False by tauto.
      rewrite sql_where_fit by (intros; by apply search_hit_runs). reflexivity.
  - assert (search = "") as Hs.
    { destruct (decide (search = "")) as [|Hne]; [done|].
      apply truthy_search in Hne. congruence. }
    rewrite decide_False by tauto. by rewrite decide_True.
Qed.

(** Membership in a listing: the stored rows, screened by the search. *)
Lemma listing_elem args w d :
  d ∈ listing (get_tasks args w).1 ↔
  ∃ k r, table w !! k = Some r ∧ d = to_dict (load k r)
         ∧ (default "" (args !! "search") = ""
            ∨ hit (default "" (args !! "search")) (k, r)).
Proof.
  rewrite get_tasks_eq. set (search := default "" (args !! "search")).
  destruct (decide (search ≠ "" ∧ _ ∧ _)) as [(Hne & Hlong & _)|_].
  - cbn. rewrite elem_of_nil. split; [done|].
    intros (k & r & _ & _ & [?|Hhit]); [done|].
    unfold hit in Hhit. by rewrite search_hit_refused in Hhit.
  - unfold listing. cbn [fst body]. rewrite list_elem_of_fmap.
    destruct (decide (search = "")) as [Hs|Hs]; split.
    + intros ([k r] & -> & Hin). rewrite merge_sort_Permutation in Hin.
      apply elem_of_map_to_list in Hin. exists k, r. by eauto.
    + intros (k & r & Hr & -> & _). exists (k, r). split; [done|].
      rewrite merge_sort_Permutation. by apply elem_of_map_to_list.
    + intros ([k r] & -> & Hin). rewrite merge_sort_Permutation in Hin.
      apply list_elem_of_filter in Hin as [Hhit Hin].
      apply elem_of_map_to_list in Hin. exists k, r. by eauto.
    + intros (k & r & Hr & -> & [He|Hhit]); [done|]. exists (k, r). split; [done|].
      rewrite merge_sort_Permutation. apply list_elem_of_filter.
      split; [done|]. by apply elem_of_map_to_list.
Qed.

Lemma listing_NoDup args w : NoDup (listing (get_tasks args w).1).
Proof.
  rewrite get_tasks_eq. destruct (decide _); [apply NoDup_nil_2|].
  unfold listing. cbn [fst body].
  apply (NoDup_fmap_2 _). rewrite merge_sort_Permutation.
  destruct (decide _); [|apply NoDup_filter]; apply NoDup_map_to_list.
Qed.

(** The condition on a row, for the three shapes of search term. *)
Lemma hit_plain (search : string) k r :
  ¬ too_long search → Sql.plain (list_ascii_of_string search) →
  hit search (k, r) ↔
  Sql.contains_ci search (Row.entity_name r)
  ∨ Sql.contains_ci search (Row.contact_person r).
Proof.
  intros Hfit Hplain. unfold hit, search_hit. cbn [snd].
  destruct (ilike_plain_contains (Row.entity_name r) search Hfit Hplain) as (a & -> & Ha).
  destruct (ilike_plain_contains (Row.contact_person r) search Hfit Hplain) as (b & -> & Hb).
  cbn. rewrite <- Ha, <- Hb. split.
  - intros [= H]. by apply orb_true_iff.
  - intros H. f_equal. by apply orb_true_iff.
Qed.



Lemma hit_pct_only k r : hit "%" (k, r).
Proof. unfold hit, search_hit. cbn [snd]. by rewrite !ilike_pct_any. Qed.

End ListingFacts.

(** ** Creating with text values *)

Section FilledFacts.

Lemma required_fields_elem field :
  field ∈ required_fields ↔
  field = "entityName" ∨ field = "taskType" ∨ field = "time"
  ∨ field = "contactPerson" ∨ field = "date" ∨ field = "status".
Proof.
  unfold required_fields. rewrite !elem_of_cons, elem_of_nil. tauto.
Qed.



End FilledFacts.

(** ** The claims *)

(** C1 (the code departs from it).  For an id that no stored record has,
    each of [get_task], [update_task] and [delete_task] answers status
    500, not 404: [get_or_404] raises [NotFound], and the handler's own
    [except Exception] catches it and builds the 500 answer, whose error
    text is the text of the 404.  (For an id outside 64 bits the lookup
    itself fails, and the answer is 500 with that failure's text.)  The
    world is left as it was, whatever the body of the update request. *)
Theorem absent_id_answers_500 (utcnow : nat → Z) task_id request w :
  table w !! task_id = None →
  get_task task_id w
    = ({| body := BError (str (lookup_failure task_id)); code := 500 |}, w)
  ∧ update_task utcnow task_id request w
    = ({| body := BFail (str (lookup_failure task_id)); code := 500 |}, w)
  ∧ delete_task utcnow task_id w
    = ({| body := BError (str (lookup_failure task_id)); code := 500 |}, w)
  ∧ (int64 task_id → lookup_failure task_id = NotFound).
Proof.
  intros H. rewrite get_task_eq, update_task_eq, delete_task_eq, H.
  repeat split. intros Hid. unfold lookup_failure. by rewrite decide_True.
Qed.

(** C2, as amended.  A successful update of an existing task answers the
    stored record in full.  When the request supplies, for [status],
    [entityName] or [notes], a value other than the stored one, the
    record's [updatedAt] is the clock reading taken by this request.  When
    it supplies none (an empty field set, values equal to the stored
    ones, or a body that is an empty list or string), nothing is written:
    the world and the record, [updatedAt] included, stay as they were. *)
Theorem update_refreshes_on_change (utcnow : nat → Z) task_id request w r resp w' :
  table w !! task_id = Some r →
  update_task utcnow task_id request w = (resp, w') →
  code resp = 200%nat →
  ∃ r', table w' !! task_id = Some r'
    ∧ body resp = BData (to_dict (load task_id r')) "Task updated successfully"
    ∧ (changes (supplied request) r →
         Row.updated_at r' = Some (utcnow (reads w))
         ∧ TaskDict.updatedAt (to_dict (load task_id r')) = Some (Iso (utcnow (reads w))))
    ∧ (¬ changes (supplied request) r → w' = w ∧ r' = r).
Proof.
  intros Hr.
  destruct (update_task_stored utcnow task_id request w r Hr)
    as [(e & w1 & -> & _)|[[-> Hno]|(r' & -> & Hch & Hrow)]].
  - by intros [= <- <-].
  - intros [= <- <-] _. exists r. by repeat split.
  - intros [= <- <-] _. exists r'. cbn [table body]. rewrite lookup_insert_eq.
    apply update_values_stamps in Hrow as [_ Hu].
    split; [done|]. split; [done|]. split; [|done].
    intros _. split; [done|]. unfold to_dict, load. cbn. by rewrite Hu.
Qed.

(** C7.  Whatever an update of an existing task answers, the stored record
    keeps its [date], [taskType], [time], [contactPerson], [phoneNumber]
    and [createdAt] (and its id: it stays under the same key, and every
    other record is untouched); each of [status], [entityName], [notes]
    that the request does not carry keeps its value; and on success each
    one it carries holds the supplied value (a text or null as it is, a
    number as the text the column stores for it). *)
Theorem update_touches_only_supplied_fields
    (utcnow : nat → Z) task_id request w r resp w' :
  table w !! task_id = Some r →
  update_task utcnow task_id request w = (resp, w') →
  ∃ r', table w' !! task_id = Some r'
    ∧ (∀ k, k ≠ task_id → table w' !! k = table w !! k)
    ∧ Row.date r' = Row.date r
    ∧ Row.task_type r' = Row.task_type r
    ∧ Row.time r' = Row.time r
    ∧ Row.contact_person r' = Row.contact_person r
    ∧ Row.phone_number r' = Row.phone_number r
    ∧ Row.created_at r' = Row.created_at r
    ∧ (supplied request !! "status" = None → Row.status r' = Row.status r)
    ∧ (supplied request !! "entityName" = None → Row.entity_name r' = Row.entity_name r)
    ∧ (supplied request !! "notes" = None → Row.notes r' = Row.notes r)
    ∧ (code resp = 200%nat →
         TaskDict.id (to_dict (load task_id r')) = Some task_id
         ∧ body resp = BData (to_dict (load task_id r')) "Task updated successfully"
         ∧ (∀ v, supplied request !! "status" = Some v →
              stored_for v (Some (Row.status r'))
              ∧ (v = JNull ∨ (∃ s, v = JStr s) → v = JStr (Row.status r')))
         ∧ (∀ v, supplied request !! "entityName" = Some v →
              stored_for v (Some (Row.entity_name r'))
              ∧ (v = JNull ∨ (∃ s, v = JStr s) → v = JStr (Row.entity_name r')))
         ∧ (∀ v, supplied request !! "notes" = Some v →
              stored_for v (Row.notes r')
              ∧ (v = JNull ∨ (∃ s, v = JStr s) → v = of_text (Row.notes r')))).
Proof.
  intros Hr.
  assert (Hboth : ∀ v column, stored_for v column →
            stored_for v column ∧ (v = JNull ∨ (∃ s, v = JStr s) → v = of_text column)).
  { intros v column H. split; [done|]. intros Hv. by apply stored_for_text. }
  destruct (update_task_stored utcnow task_id request w r Hr)
    as [(e & w1 & -> & Ht & _)|[[-> Hno]|(r' & -> & Hch & Hrow)]].
  - intros [= <- <-]. exists r. rewrite Ht. cbn [code]. by repeat split.
  - intros [= <- <-]. exists r.
    assert (Hs : ∀ v, supplied request !! "status" = Some v → v = JStr (Row.status r)).
    { intros v Hv. apply (proj1 (same_as_loaded_iff v (Some (Row.status r)))).
      destruct (same_as_loaded v _) eqn:E; [done|exfalso]. apply Hno. left.
      exists v. split; [done|]. intros Heq.
      apply (proj2 (same_as_loaded_iff v (Some (Row.status r)))) in Heq. congruence. }
    assert (He : ∀ v, supplied request !! "entityName" = Some v
                      → v = JStr (Row.entity_name r)).
    { intros v Hv. apply (proj1 (same_as_loaded_iff v (Some (Row.entity_name r)))).
      destruct (same_as_loaded v _) eqn:E; [done|exfalso]. apply Hno. right. left.
      exists v. split; [done|]. intros Heq.
      apply (proj2 (same_as_loaded_iff v (Some (Row.entity_name r)))) in Heq. congruence. }
    assert (Hn : ∀ v, supplied request !! "notes" = Some v → v = of_text (Row.notes r)).
    { intros v Hv. apply (proj1 (same_as_loaded_iff v (Row.notes r))).
      destruct (same_as_loaded v _) eqn:E; [done|exfalso]. apply Hno. right. right.
      exists v. split; [done|]. intros Heq.
      apply (proj2 (same_as_loaded_iff v (Row.notes r))) in Heq. congruence. }
    do 11 (split; [done|]). intros _. split; [done|]. split; [done|].
    split; [|split]; intros v Hv; apply Hboth; left; auto.
  - intros [= <- <-]. exists r'. cbn [table body code]. rewrite lookup_insert_eq.
    destruct (update_values_assigned_ok _ _ _ _ _ Hrow)
      as (Hd & Hty & Hti & Hcp & Hph & Hc & Hu & Ss & Se & Sn & Ks & Ke & Kn).
    split; [done|]. split; [by intros k Hk; rewrite lookup_insert_ne|].
    do 9 (split; [done|]). intros _. split; [done|]. split; [done|].
    split; [|split]; intros v Hv.
    + rewrite Hv in Ss. apply (Hboth v _ Ss).
    + rewrite Hv in Se. apply (Hboth v _ Se).
    + rewrite Hv in Sn. apply (Hboth v _ Sn).
Qed.


(** C6, as amended.  When the body of a create request is an object in
    which a required field is missing or empty, the answer is 400 with
    the message ["Missing field: "] followed by the name of a required
    field that is missing or empty in the request (the first such one in
    the order entityName, taskType, time, contactPerson, date, status; so
    the very field when only one is at fault), and the world is
    unchanged: nothing is stored.  When all six are non-empty the answer
    is not 400, whatever [notes] and [phoneNumber] are, present or not.
    A field that is absent, null or the empty text counts as missing. *)
Theorem create_rejects_missing_field (utcnow : nat → Z) data w :
  (∀ X, X ∈ required_fields → missing data X →
     ∃ field,
       create_task utcnow (Json (JObj data)) w =
         ({| body := BFail ("Missing field: " +:+ field); code := 400 |}, w)
       ∧ field ∈ required_fields ∧ missing data field
       ∧ List.find (λ f, negb (truthy (dict_get data f))) required_fields = Some field
       ∧ ((∀ Y, Y ∈ required_fields → missing data Y → Y = X) → field = X))
  ∧ ((∀ field, field ∈ required_fields → ¬ missing data field) →
     code (create_task utcnow (Json (JObj data)) w).1 ≠ 400%nat)
  ∧ (∀ X, data !! X = None ∨ data !! X = Some JNull ∨ data !! X = Some (JStr "") →
     missing data X).
Proof.
  split; [|split].
  - intros X HX Hmiss. rewrite create_task_obj_eq.
    destruct (List.find (λ f, negb (truthy (dict_get data f))) required_fields)
      as [field|] eqn:Hfind.
    + destruct (find_missing_some _ _ Hfind) as [Hin Hm]. exists field.
      repeat split; try done. intros Honly. by apply Honly.
    + by destruct (find_missing_none _ Hfind X HX).
  - intros Hall. rewrite create_task_obj_eq, not_missing_find by done.
    destruct (insert_values _ _ _); [done|]. by destruct (next_rowid (table w)).
  - intros X [H|[H|H]]; unfold missing, dict_get; by rewrite H.
Qed.

(** C8.  When a create request succeeds with record [d], the id of [d] is
    set and a get of that id in the resulting world answers 200 with
    exactly [d], and leaves the world as it is. *)
Theorem create_then_get_round_trip (utcnow : nat → Z) request w d message w' :
  create_task utcnow request w = ({| body := BData d message; code := 201 |}, w') →
  ∃ k, TaskDict.id d = Some k
       ∧ get_task k w' = ({| body := BTask d; code := 200 |}, w').
Proof.
  destruct (create_task_cases utcnow request w)
    as [[field ->]|[(e & w1 & -> & _)|(k & row & _ & -> & _)]]; [done|done|].
  intros [= <- <- <-]. exists k. split; [done|].
  rewrite get_task_eq. cbn [table]. by rewrite lookup_insert_eq.
Qed.


(** C4, as amended.  For a non-empty search term of at most 49998 bytes
    that contains none of ['%'], ['_'] and NUL, the listing answers 200
    with, once each, exactly the stored tasks whose [entityName] or
    [contactPerson] contains the term as a contiguous run of characters
    up to ASCII case (of a name, the characters before its first NUL);
    when no stored task does, the data list is empty. *)
Theorem search_plain_term_is_substring_filter args (search : string) w :
  args !! "search" = Some search →
  search ≠ "" →
  Sql.plain (list_ascii_of_string search) →
  ¬ too_long search →
  ∃ data,
    get_tasks args w = ({| body := BList data; code := 200 |}, w)
    ∧ NoDup data
    ∧ (∀ d, d ∈ data ↔
         ∃ k r, table w !! k = Some r ∧ d = to_dict (load k r)
                ∧ (Sql.contains_ci search (Row.entity_name r)
                   ∨ Sql.contains_ci search (Row.contact_person r)))
    ∧ ((∀ k r, table w !! k = Some r →
          ¬ Sql.contains_ci search (Row.entity_name r)
          ∧ ¬ Sql.contains_ci search (Row.contact_person r)) →
       data = []).
Proof.
  intros Harg Hne Hplain Hfit.
  assert (Hmem : ∀ d, d ∈ listing (get_tasks args w).1 ↔
            ∃ k r, table w !! k = Some r ∧ d = to_dict (load k r)
                   ∧ (Sql.contains_ci search (Row.entity_name r)
                      ∨ Sql.contains_ci search (Row.contact_person r))).
  { intros d. rewrite listing_elem, Harg.
    change (default "" (Some search)) with search. split.
    - intros (k & r & Hr & -> & [?|Hhit]); [done|].
      exists k, r. split; [done|]. split; [done|].
      by apply (proj1 (hit_plain search k r Hfit Hplain)).
    - intros (k & r & Hr & -> & Hc). exists k, r. split; [done|]. split; [done|].
      right. by apply (proj2 (hit_plain search k r Hfit Hplain)). }
  pose proof (listing_NoDup args w) as Hnd.
  rewrite get_tasks_eq in *. rewrite Harg in *.
  change (default "" (Some search)) with search in *.
  rewrite (decide_False (P := search ≠ "" ∧ _)) in * by tauto.
  unfold listing in *. cbn [fst body] in *.
  eexists. split; [reflexivity|]. split; [done|]. split; [done|].
  intros Hnone. apply elem_of_nil_inv. intros d Hd.
  apply Hmem in Hd as (k & r & Hr & _ & Hc).
  destruct (Hnone k r Hr) as [H1 H2]. tauto.
Qed.

(** C5.  Without a search term (the parameter absent or empty) the
    listing answers 200 with every stored task once, the rows in
    descending order of [created_at]; so of two stored tasks the one with
    the later [createdAt] stands before the other. *)
Theorem listing_is_newest_first args w :
  default "" (args !! "search") = "" →
  ∃ rows,
    get_tasks args w =
      ({| body := BList ((λ kr, to_dict (load kr.1 kr.2)) <$> rows); code := 200 |}, w)
    ∧ rows ≡ₚ map_to_list (table w)
    ∧ StronglySorted newer_first rows
    ∧ (∀ ka ra kb rb ca cb,
         table w !! ka = Some ra → table w !! kb = Some rb →
         Row.created_at ra = Some ca → Row.created_at rb = Some cb → ca < cb →
         before (to_dict (load kb rb)) (to_dict (load ka ra))
                ((λ kr, to_dict (load kr.1 kr.2)) <$> rows)).
Proof.
  intros Hs. exists (merge_sort newer_first (map_to_list (table w))).
  split; [|split; [|split]].
  - rewrite get_tasks_eq, Hs. rewrite decide_False by tauto. by rewrite decide_True.
  - apply merge_sort_Permutation.
  - apply (StronglySorted_merge_sort _).
  - intros ka ra kb rb ca cb Ha Hb Hca Hcb Hlt.
    set (rows := merge_sort newer_first (map_to_list (table w))).
    assert (Hina : (ka, ra) ∈ rows).
    { unfold rows. rewrite merge_sort_Permutation. by apply elem_of_map_to_list. }
    assert (Hinb : (kb, rb) ∈ rows).
    { unfold rows. rewrite merge_sort_Permutation. by apply elem_of_map_to_list. }
    apply list_elem_of_lookup in Hina as [j Hj].
    apply list_elem_of_lookup in Hinb as [i Hi].
    exists i, j. rewrite !list_lookup_fmap, Hi, Hj. split; [|done].
    destruct (decide (i < j)%nat) as [|Hge]; [done|exfalso].
    destruct (decide (i = j)) as [->|Hij].
    + rewrite Hi in Hj. injection Hj as -> ->. rewrite Hca in Hcb.
      injection Hcb as ->. lia.
    + assert (Hs' : StronglySorted newer_first rows)
        by apply (StronglySorted_merge_sort _).
      pose proof (StronglySorted_lookup _ _ j i _ _ Hs' ltac:(lia) Hj Hi) as Hr.
      unfold newer_first in Hr. cbn in Hr. rewrite Hca, Hcb in Hr. cbn in Hr. lia.
Qed.


(** ** Concrete runs *)

(** C2, the statement it makes of every successful update, fails: from the
    first start ([reads] is 4), an update of task 1 with an empty field set
    succeeds and answers the record with the [updatedAt] of its creation,
    reading 1, not the current reading 4. *)
Lemma update_without_change_keeps_updated_at :
  ¬ (∀ (utcnow : nat → Z) task_id request w d message w',
       is_Some (table w !! task_id) →
       update_task utcnow task_id request w
         = ({| body := BData d message; code := 200 |}, w') →
       TaskDict.updatedAt d = Some (Iso (utcnow (reads w)))).
Proof.
  intros H.
  specialize (H sample_clock 1 (Json (JObj ∅)) (initial sample_clock)).
  edestruct (update_task sample_clock 1 (Json (JObj ∅)) (initial sample_clock))
    as [resp w'] eqn:E.
  vm_compute in E. injection E as <- <-.
  specialize (H _ _ _ ltac:(by eexists; vm_compute) eq_refl).
  vm_compute in H. discriminate H.
Qed.


(** C4, read for every non-empty term, fails.  The term ["%"] lists the
    seeded task 1, although neither ["ABC Pvt Ltd"] nor ["Ravi Kumar"]
    contains a ['%'].  The term [a], NUL, [b] lists the seeded task 2,
    whose names hold no NUL.  And a term of 49999 letters is answered
    with 500. *)
Lemma search_pct_lists_tasks_without_pct :
  ¬ (∀ w (search : string) d,
       search ≠ "" →
       d ∈ listing (get_tasks {["search" := search]} w).1 ↔
       ∃ k r, table w !! k = Some r ∧ d = to_dict (load k r)
              ∧ (Sql.contains_ci search (Row.entity_name r)
                 ∨ Sql.contains_ci search (Row.contact_person r)))
  ∧ (TaskDict.id <$>
       listing (get_tasks {["search" := String "a" (String "000" "b")]}
                  (initial sample_clock)).1) = [Some 2]
  ∧ code (get_tasks {["search" := long_term]} (initial sample_clock)).1 = 500%nat.
Proof.
  split; [|split; vm_compute; reflexivity].
  intros H.
  set (w := initial sample_clock).
  destruct (table w !! 1) as [r1|] eqn:Hr1; [|by vm_compute in Hr1].
  assert (Row.entity_name r1 = "ABC Pvt Ltd"
          ∧ Row.contact_person r1 = "Ravi Kumar") as [He1 Hc1].
  { vm_compute in Hr1. by injection Hr1 as <-. }
  destruct (proj1 (H w "%" (to_dict (load 1 r1)) ltac:(done))) as (k & r & _ & Heq & Hc).
  { apply listing_elem. exists 1, r1. split; [done|]. split; [done|]. right.
    rewrite lookup_singleton_eq. apply hit_pct_only. }
  assert (Row.entity_name r = "ABC Pvt Ltd"
          ∧ Row.contact_person r = "Ravi Kumar") as [He Hcp].
  { pose proof (f_equal TaskDict.entityName Heq) as E1.
    pose proof (f_equal TaskDict.contactPerson Heq) as E2.
    cbn in E1, E2. split; congruence. }
  rewrite He, Hcp in Hc. unfold Sql.contains_ci in Hc.
  change (Sql.folded "%") with [Sql.match_all] in Hc.
  assert (Hno : ∀ text : list N, Sql.match_all ∉ text →
                  ¬ ∃ a b : list N, text = a ++ [Sql.match_all] ++ b).
  { intros text Hnot (a & b & ->). apply Hnot, elem_of_app. right. by left. }
  destruct Hc as [Hc|Hc]; (eapply Hno; [|exact Hc]);
    apply (bool_decide_unpack _); vm_compute; exact I.
Qed.

(** C6, read for every create request, fails: a request whose body is
    the JSON value [null] supplies none of the six fields, and is
    answered with 500, not 400. *)
Lemma create_with_null_body_answers_500 :
  ¬ (∀ (utcnow : nat → Z) request w,
       (∃ X, X ∈ required_fields ∧ missing (supplied request) X) →
       code (create_task utcnow request w).1 = 400%nat).
Proof.
  intros H.
  specialize (H sample_clock (Json JNull) (initial sample_clock)).
  assert (Hm : ∃ X, X ∈ required_fields ∧ missing (supplied (Json JNull)) X).
  { exists "date". split; [apply required_fields_elem; tauto|]. vm_compute. reflexivity. }
  specialize (H Hm). vm_compute in H. discriminate H.
Qed.


(** An absent id, on the seeded table. *)
Lemma absent_id_answers_500_witness :
  table (initial sample_clock) !! 999 = None
  ∧ get_task 999 (initial sample_clock)
    = ({| body := BError (str (lookup_failure 999)); code := 500 |}, initial sample_clock)
  ∧ update_task sample_clock 999 closing (initial sample_clock)
    = ({| body := BFail (str (lookup_failure 999)); code := 500 |}, initial sample_clock)
  ∧ delete_task sample_clock 999 (initial sample_clock)
    = ({| body := BError (str (lookup_failure 999)); code := 500 |}, initial sample_clock)
  ∧ (int64 999 → lookup_failure 999 = NotFound).
Proof.
  split; [vm_compute; reflexivity|].
  apply (absent_id_answers_500 sample_clock 999 closing (initial sample_clock)).
  vm_compute; reflexivity.
Defined.

(** Closing the seeded task 1: the record comes back with reading 4. *)
Lemma update_refreshes_on_change_witness :
  ∃ r resp w',
    table (initial sample_clock) !! 1 = Some r
    ∧ update_task sample_clock 1 closing (initial sample_clock) = (resp, w')
    ∧ code resp = 200%nat
    ∧ ∃ r', table w' !! 1 = Some r'
        ∧ body resp = BData (to_dict (load 1 r')) "Task updated successfully"
        ∧ (changes (supplied closing) r →
             Row.updated_at r' = Some (sample_clock (reads (initial sample_clock)))
             ∧ TaskDict.updatedAt (to_dict (load 1 r'))
               = Some (Iso (sample_clock (reads (initial sample_clock)))))
        ∧ (¬ changes (supplied closing) r → w' = initial sample_clock ∧ r' = r).
Proof.
  eexists _, _, _.
  split; [vm_compute; reflexivity|].
  split; [vm_compute; reflexivity|].
  split; [reflexivity|].
  eapply (update_refreshes_on_change sample_clock 1 closing (initial sample_clock)).
  - vm_compute; reflexivity.
  - vm_compute; reflexivity.
  - reflexivity.
Defined.


(** The search of the specification's example, on the seeded table. *)
Lemma search_plain_term_is_substring_filter_witness :
  ({["search" := "ravi"]} : gmap string string) !! "search" = Some "ravi"
  ∧ "ravi" ≠ ""
  ∧ Sql.plain (list_ascii_of_string "ravi")
  ∧ ¬ too_long "ravi"
  ∧ ∃ data,
      get_tasks {["search" := "ravi"]} (initial sample_clock)
      = ({| body := BList data; code := 200 |}, initial sample_clock)
      ∧ NoDup data
      ∧ (∀ d, d ∈ data ↔
           ∃ k r, table (initial sample_clock) !! k = Some r ∧ d = to_dict (load k r)
                  ∧ (Sql.contains_ci "ravi" (Row.entity_name r)
                     ∨ Sql.contains_ci "ravi" (Row.contact_person r)))
      ∧ ((∀ k r, table (initial sample_clock) !! k = Some r →
            ¬ Sql.contains_ci "ravi" (Row.entity_name r)
            ∧ ¬ Sql.contains_ci "ravi" (Row.contact_person r)) →
         data = []).
Proof.
  assert (Hplain : Sql.plain (list_ascii_of_string "ravi")).
  { apply (bool_decide_unpack _). vm_compute. exact I. }
  assert (Hfit : ¬ too_long "ravi") by (vm_compute; discriminate).
  split; [vm_compute; reflexivity|]. split; [discriminate|]. split; [exact Hplain|].
  split; [exact Hfit|].
  apply (search_plain_term_is_substring_filter {["search" := "ravi"]} "ravi"
           (initial sample_clock)).
  - vm_compute; reflexivity.
  - discriminate.
  - exact Hplain.
  - exact Hfit.
Defined.

(** The listing without a term, on the seeded table: task 2, created at
    reading 2, stands before task 1, created at reading 0. *)
Lemma listing_is_newest_first_witness :
  default "" ((∅ : gmap string string) !! "search") = ""
  ∧ ∃ rows ra rb,
      get_tasks ∅ (initial sample_clock) =
        ({| body := BList ((λ kr, to_dict (load kr.1 kr.2)) <$> rows); code := 200 |},
         initial sample_clock)
      ∧ table (initial sample_clock) !! 1 = Some ra
      ∧ table (initial sample_clock) !! 2 = Some rb
      ∧ Row.created_at ra = Some 0
      ∧ Row.created_at rb = Some 2
      ∧ before (to_dict (load 2 rb)) (to_dict (load 1 ra))
               ((λ kr, to_dict (load kr.1 kr.2)) <$> rows).
Proof.
  split; [vm_compute; reflexivity|].
  destruct (listing_is_newest_first ∅ (initial sample_clock))
    as (rows & Heq & _ & _ & Hbefore); [vm_compute; reflexivity|].
  exists rows. eexists _, _. split; [exact Heq|].
  split; [vm_compute; reflexivity|]. split; [vm_compute; reflexivity|].
  split; [reflexivity|]. split; [reflexivity|].
  apply (Hbefore 1 _ 2 _ 0 2); [vm_compute; reflexivity ..|lia].
Defined.

(** A create request without [contactPerson]. *)
Lemma create_rejects_missing_field_witness :
  "contactPerson" ∈ required_fields
  ∧ missing (delete "contactPerson" sample_body) "contactPerson"
  ∧ ∃ field,
      create_task sample_clock (Json (JObj (delete "contactPerson" sample_body)))
        (initial sample_clock) =
        ({| body := BFail ("Missing field: " +:+ field); code := 400 |},
         initial sample_clock)
      ∧ field ∈ required_fields
      ∧ missing (delete "contactPerson" sample_body) field
      ∧ List.find (λ f, negb (truthy (dict_get (delete "contactPerson" sample_body) f)))
          required_fields = Some field
      ∧ ((∀ Y, Y ∈ required_fields →
            missing (delete "contactPerson" sample_body) Y → Y = "contactPerson") →
         field = "contactPerson").
Proof.
  assert (Hin : "contactPerson" ∈ required_fields).
  { apply required_fields_elem. tauto. }
  assert (Hm : missing (delete "contactPerson" sample_body) "contactPerson").
  { vm_compute. reflexivity. }
  split; [exact Hin|]. split; [exact Hm|].
  exact (proj1 (create_rejects_missing_field sample_clock
                  (delete "contactPerson" sample_body) (initial sample_clock))
           "contactPerson" Hin Hm).
Defined.

(** Closing the seeded task 1 touches [status] and nothing else of it. *)
Lemma update_touches_only_supplied_fields_witness :
  ∃ r resp w',
    table (initial sample_clock) !! 1 = Some r
    ∧ update_task sample_clock 1 closing (initial sample_clock) = (resp, w')
    ∧ ∃ r', table w' !! 1 = Some r'
        ∧ (∀ k, k ≠ 1 → table w' !! k = table (initial sample_clock) !! k)
        ∧ Row.date r' = Row.date r
        ∧ Row.task_type r' = Row.task_type r
        ∧ Row.time r' = Row.time r
        ∧ Row.contact_person r' = Row.contact_person r
        ∧ Row.phone_number r' = Row.phone_number r
        ∧ Row.created_at r' = Row.created_at r
        ∧ (supplied closing !! "status" = None → Row.status r' = Row.status r)
        ∧ (supplied closing !! "entityName" = None →
             Row.entity_name r' = Row.entity_name r)
        ∧ (supplied closing !! "notes" = None → Row.notes r' = Row.notes r)
        ∧ (code resp = 200%nat →
             TaskDict.id (to_dict (load 1 r')) = Some 1
             ∧ body resp = BData (to_dict (load 1 r')) "Task updated successfully"
             ∧ (∀ v, supplied closing !! "status" = Some v →
                  stored_for v (Some (Row.status r'))
                  ∧ (v = JNull ∨ (∃ s, v = JStr s) → v = JStr (Row.status r')))
             ∧ (∀ v, supplied closing !! "entityName" = Some v →
                  stored_for v (Some (Row.entity_name r'))
                  ∧ (v = JNull ∨ (∃ s, v = JStr s) → v = JStr (Row.entity_name r')))
             ∧ (∀ v, supplied closing !! "notes" = Some v →
                  stored_for v (Row.notes r')
                  ∧ (v = JNull ∨ (∃ s, v = JStr s) → v = of_text (Row.notes r')))).
Proof.
  eexists _, _, _.
  split; [vm_compute; reflexivity|].
  split; [vm_compute; reflexivity|].
  eapply (update_touches_only_supplied_fields sample_clock 1 closing
            (initial sample_clock)).
  - vm_compute; reflexivity.
  - vm_compute; reflexivity.
Defined.

(** A create on the seeded table, then a get of the id it answered. *)
Lemma create_then_get_round_trip_witness :
  ∃ d message w',
    create_task sample_clock sample_request (initial sample_clock)
    = ({| body := BData d message; code := 201 |}, w')
    ∧ ∃ k, TaskDict.id d = Some k
           ∧ get_task k w' = ({| body := BTask d; code := 200 |}, w').
Proof.
  eexists _, _, _. split; [vm_compute; reflexivity|].
  eapply (create_then_get_round_trip sample_clock sample_request (initial sample_clock)).
  vm_compute; reflexivity.
Defined.



(** * Further properties of the handlers *)

Section MoreHandlerFacts.
Variable utcnow : nat → Z.

(** Whether the three assignments run through depends on the body only. *)
Lemma assigned_of_any request t1 t2 x :
  assigned_of request t1 = inr x → ∃ y, assigned_of request t2 = inr y.
Proof.
  destruct request as [|[]]; cbn [assigned_of]; try done; try by eauto.
  all: destruct (_ || _); [done|by eauto].
Qed.

(** What a successful update leaves behind: the answered record is the
    stored one, and it holds every supplied text or null. *)
Lemma update_task_ok_row task_id request w resp w' :
  update_task utcnow task_id request w = (resp, w') →
  code resp = 200%nat →
  ∃ r', table w' !! task_id = Some r'
        ∧ resp = {| body := BData (to_dict (load task_id r')) "Task updated successfully";
                    code := 200 |}
        ∧ (∃ r t, table w !! task_id = Some r
                  ∧ assigned_of request (load task_id r) = inr t)
        ∧ (text_or_null (supplied request) "status" →
           text_or_null (supplied request) "entityName" →
           text_or_null (supplied request) "notes" →
           ¬ changes (supplied request) r').
Proof.
  intros Hup Hok.
  destruct (table w !! task_id) as [r|] eqn:Hr.
  2:{ rewrite update_task_eq, Hr in Hup. injection Hup as <- <-. done. }
  assert (Hassigned : ∃ t, assigned_of request (load task_id r) = inr t).
  { rewrite update_task_eq, Hr in Hup.
    destruct (assigned_of request (load task_id r)) as [e|t]; [|by eauto].
    injection Hup as <- <-. done. }
  destruct Hassigned as [t Ht].
  destruct (update_task_stored utcnow task_id request w r Hr)
    as [(e & w1 & E & _)|[[E Hno]|(r' & E & Hch & Hrow)]];
    rewrite E in Hup; injection Hup as <- <-; [done| |].
  - exists r. split; [done|]. split; [done|]. split; [by exists r, t|]. done.
  - exists r'. cbn [table]. rewrite lookup_insert_eq.
    split; [done|]. split; [done|]. split; [by exists r, t|].
    intros Ts Te Tn.
    destruct (update_values_assigned_ok _ _ _ _ _ Hrow)
      as (_ & _ & _ & _ & _ & _ & _ & Ss & Se & Sn & _).
    intros [(v & Hv & Hne)|[(v & Hv & Hne)|(v & Hv & Hne)]]; apply Hne.
    + rewrite Hv in Ss. apply (stored_for_text v (Some (Row.status r')) (Ts v Hv) Ss).
    + rewrite Hv in Se. apply (stored_for_text v (Some (Row.entity_name r')) (Te v Hv) Se).
    + rewrite Hv in Sn. apply (stored_for_text v (Row.notes r') (Tn v Hv) Sn).
Qed.







End MoreHandlerFacts.

(** X1.  Deleting a stored task answers 200 and removes that record and
    no other, without reading the clock.  From then on a get or a second
    delete of the same id answers 500, and no listing, whatever the search,
    shows a task with that id. *)
Theorem delete_removes_the_record (utcnow : nat → Z) task_id w r :
  table w !! task_id = Some r →
  ∃ w',
    delete_task utcnow task_id w =
      ({| body := BMessage "Task deleted successfully"; code := 200 |}, w')
    ∧ table w' !! task_id = None
    ∧ (∀ k, k ≠ task_id → table w' !! k = table w !! k)
    ∧ reads w' = reads w
    ∧ code (get_task task_id w').1 = 500%nat
    ∧ code (delete_task utcnow task_id w').1 = 500%nat
    ∧ (∀ args d, d ∈ listing (get_tasks args w').1 → TaskDict.id d ≠ Some task_id).
Proof.
  intros Hr. rewrite delete_task_eq, Hr. eexists. split; [reflexivity|].
  cbn [table reads]. rewrite get_task_eq, delete_task_eq. cbn [table].
  rewrite lookup_delete_eq. cbn [fst code].
  split; [done|]. split; [by intros k Hk; rewrite lookup_delete_ne|].
  split; [done|]. split; [done|]. split; [done|].
  intros args d Hd. apply listing_elem in Hd as (k & r' & Hk & -> & _).
  cbn [table] in Hk. apply lookup_delete_Some in Hk as [Hne _].
  cbn. congruence.
Qed.


(** X3.  An update that succeeded, carrying texts or nulls for the
    fields it sets, can be sent again: the second time it answers the
    same record and leaves the world untouched (no write, no clock
    reading, so [updatedAt] is that of the first time). *)
Theorem update_again_changes_nothing (utcnow : nat → Z) task_id request w resp w' :
  text_or_null (supplied request) "status" →
  text_or_null (supplied request) "entityName" →
  text_or_null (supplied request) "notes" →
  update_task utcnow task_id request w = (resp, w') →
  code resp = 200%nat →
  update_task utcnow task_id request w' = (resp, w').
Proof.
  intros Ts Te Tn Hup Hok.
  destruct (update_task_ok_row utcnow _ _ _ _ _ Hup Hok)
    as (r' & Hr' & -> & (r & t & _ & Ht) & Hsame).
  specialize (Hsame Ts Te Tn).
  rewrite update_task_eq, Hr'.
  destruct (assigned_of_any request _ (load task_id r') _ Ht) as [t' Ht'].
  rewrite Ht'. apply assigned_of_supplied in Ht' as ->.
  apply (proj2 (unchanged_assigned (supplied request) task_id r')) in Hsame.
  by rewrite Hsame.
Qed.

(** X4.  After a successful update, a get of the same id answers 200 with
    exactly the record the update answered. *)
Theorem update_then_get_round_trip (utcnow : nat → Z) task_id request w d message w' :
  update_task utcnow task_id request w
    = ({| body := BData d message; code := 200 |}, w') →
  get_task task_id w' = ({| body := BTask d; code := 200 |}, w').
Proof.
  intros Hup.
  destruct (update_task_ok_row utcnow _ _ _ _ _ Hup eq_refl)
    as (r' & Hr' & [= -> ->] & _).
  by rewrite get_task_eq, Hr'.
Qed.

(** X5.  A create request is read through eight members only.  Two
    objects that agree on them are answered alike and leave the same
    world: whatever else the body carries ([id], [createdAt],
    [updatedAt], anything) has no effect, so a client cannot choose the id
    or the timestamps of the record. *)
Theorem create_reads_eight_members (utcnow : nat → Z) data data' w :
  (∀ key, key ∈ create_keys → data !! key = data' !! key) →
  create_task utcnow (Json (JObj data)) w = create_task utcnow (Json (JObj data')) w.
Proof.
  intros Hagree.
  assert (Hget : ∀ key, key ∈ create_keys → dict_get data key = dict_get data' key).
  { intros key Hin. unfold dict_get. by rewrite (Hagree key Hin). }
  assert (Hin : ∀ key, key ∈ create_keys ↔
            key = "entityName" ∨ key = "taskType" ∨ key = "time" ∨ key = "contactPerson"
            ∨ key = "date" ∨ key = "status" ∨ key = "notes" ∨ key = "phoneNumber").
  { intros key. unfold create_keys. rewrite !elem_of_cons, elem_of_nil. tauto. }
  rewrite !create_task_obj_eq. unfold required_fields, new_task_of. cbn [List.find].
  rewrite !(Hget "entityName"), !(Hget "taskType"), !(Hget "time"),
    !(Hget "contactPerson"), !(Hget "date"), !(Hget "status"),
    !(Hget "notes"), !(Hget "phoneNumber") by (apply Hin; tauto).
  reflexivity.
Qed.


(** X7.  The search term counts up to ASCII case only: two terms that are
    equal once lowered give the same answer. *)
Theorem search_term_case_is_ignored (s s' : string) w :
  Sql.lower (list_ascii_of_string s) = Sql.lower (list_ascii_of_string s') →
  get_tasks {["search" := s]} w = get_tasks {["search" := s']} w.
Proof.
  intros Hlow. rewrite !get_tasks_eq, !lookup_singleton_eq.
  change (default "" (Some s)) with s. change (default "" (Some s')) with s'.
  assert (He : s = "" ↔ s' = "").
  { destruct s, s'; try done; discriminate Hlow. }
  assert (Hlen : String.length s = String.length s').
  { rewrite <- !list_ascii_of_string_length,
      <- (lower_length (list_ascii_of_string s)), Hlow. apply lower_length. }
  assert (Hl : too_long s ↔ too_long s').
  { unfold too_long. by rewrite Hlen. }
  assert (Hf : filter (hit s) (map_to_list (table w))
               = filter (hit s') (map_to_list (table w))).
  { apply list_filter_iff. intros [k r]. unfold hit, search_hit. cbn [snd].
    by rewrite !(ilike_lowered _ s s' Hlow). }
  rewrite Hf.
  destruct (decide (s ≠ "" ∧ _)), (decide (s' ≠ "" ∧ _)); try tauto.
  destruct (decide (s = "")), (decide (s' = "")); tauto || done.
Qed.

(** X8.  Start-up seeds an empty table only.  On a table with any row
    the start-up block changes nothing and reads no clock.  On an empty
    table, also one emptied by deletions before a restart, it stores the
    two samples under ids 1 and 2, stamped with four successive clock
    readings. *)
Theorem startup_seeds_an_empty_table_only (utcnow : nat → Z) w :
  (table w ≠ ∅ → startup utcnow w = (inr (), w))
  ∧ (table w = ∅ →
     ∃ r1 r2,
       startup utcnow w =
         (inr (), {| table := <[2 := r2]> (<[1 := r1]> ∅);
                     reads := S (S (S (S (reads w)))) |})
       ∧ Row.entity_name r1 = "ABC Pvt Ltd" ∧ Row.contact_person r1 = "Ravi Kumar"
       ∧ Row.status r1 = "Open"
       ∧ Row.created_at r1 = Some (utcnow (reads w))
       ∧ Row.updated_at r1 = Some (utcnow (S (reads w)))
       ∧ Row.entity_name r2 = "XYZ Ltd" ∧ Row.contact_person r2 = "Suresh Sharma"
       ∧ Row.status r2 = "Closed" ∧ Row.phone_number r2 = None
       ∧ Row.created_at r2 = Some (utcnow (S (S (reads w))))
       ∧ Row.updated_at r2 = Some (utcnow (S (S (S (reads w)))))).
Proof.
  split.
  - intros Hne. unfold startup. rewrite bind_eq. unfold get_table.
    rewrite decide_False; [done|]. by intros ?%map_size_empty_iff.
  - destruct w as [tbl rd]. cbn [table reads]. intros ->.
    eexists _, _. split; [vm_compute; reflexivity|]. cbn. done.
Qed.

(** X9.  In every world reached from the first start every stored id is a
    positive integer, at most two more than the number of requests served
    so far. *)
Theorem stored_ids_are_positive_and_bounded (utcnow : nat → Z) reqs k :
  is_Some (table (run utcnow reqs (initial utcnow)).2 !! k) →
  0 < k ≤ 2 + Z.of_nat (length reqs).
Proof.
  intros Hk.
  exact (run_keys utcnow reqs (initial utcnow) 2 ltac:(lia) (initial_keys utcnow) k Hk).
Qed.

Section ClockFacts.
Variable utcnow : nat → Z.
Hypothesis Hmono : clock_mono utcnow.

Lemma effect_settled req w w' :
  settled utcnow w → effect utcnow req w w' → settled utcnow w'.
Proof using Hmono.
  intros Hw [Ht Hle|k row Hk Ht Hc Hu Hrd|k r r' Hr Ht Hc Hu Hrd|k _ Ht Hrd];
    intros k' x; rewrite Ht.
  - intros (u & ? & ?)%Hw. exists u. split; [done|].
    etrans; [done|]. by apply Hmono.
  - destruct (decide (k = k')) as [<-|Hne].
    + rewrite lookup_insert_eq. intros [= <-]. eexists. split; [done|].
      rewrite Hrd. apply Hmono. lia.
    + rewrite lookup_insert_ne by done. intros (u & ? & ?)%Hw. exists u.
      split; [done|]. etrans; [done|]. apply Hmono. lia.
  - destruct (decide (k = k')) as [<-|Hne].
    + rewrite lookup_insert_eq. intros [= <-]. eexists. split; [done|].
      rewrite Hrd. apply Hmono. lia.
    + rewrite lookup_insert_ne by done. intros (u & ? & ?)%Hw. exists u.
      split; [done|]. etrans; [done|]. apply Hmono. lia.
  - intros [_ (u & ? & ?)%Hw]%lookup_delete_Some. exists u. by rewrite Hrd.
Qed.

Lemma run_settled reqs w : settled utcnow w → settled utcnow (run utcnow reqs w).2.
Proof using Hmono.
  revert w. induction reqs as [|req reqs IH]; intros w Hw; [done|].
  rewrite run_cons_snd. apply IH. eapply effect_settled; [done|apply handle_effect].
Qed.

Lemma initial_settled : settled utcnow (initial utcnow).
Proof using Hmono.
  rewrite initial_eq. intros k r. cbn [table reads]. intros Hk.
  apply lookup_insert_Some in Hk as [[<- <-]|[_ Hk]].
  { eexists. split; [done|]. apply Hmono. lia. }
  apply lookup_insert_Some in Hk as [[<- <-]|[_ Hk]]; [|done].
  eexists. split; [done|]. apply Hmono. lia.
Qed.

End ClockFacts.

(** X10.  With a clock that never steps back, [updatedAt] never moves
    backwards: in a world reached from the first start, whatever request
    is served next, a record still stored under its id afterwards has an
    [updatedAt] not earlier than before. *)
Theorem updated_at_never_decreases (utcnow : nat → Z) reqs req k r r' u u' :
  clock_mono utcnow →
  table (run utcnow reqs (initial utcnow)).2 !! k = Some r →
  table (handle utcnow req (run utcnow reqs (initial utcnow)).2).2 !! k = Some r' →
  Row.updated_at r = Some u →
  Row.updated_at r' = Some u' →
  u ≤ u'.
Proof.
  intros Hmono Hr Hr' Hu Hu'. set (w := (run utcnow reqs (initial utcnow)).2) in *.
  assert (Hw : settled utcnow w).
  { apply run_settled; [done|by apply initial_settled]. }
  destruct (Hw k r Hr) as (u0 & Hu0 & Hle). rewrite Hu in Hu0. injection Hu0 as <-.
  destruct (handle_effect utcnow req w)
    as [Ht _|k0 row Hk Ht _ _ _|k0 r0 r1 Hr0 Ht _ Hup _|k0 _ Ht _]; rewrite Ht in Hr'.
  - rewrite Hr in Hr'. injection Hr' as <-. rewrite Hu in Hu'. injection Hu' as <-. lia.
  - apply next_rowid_fresh in Hk as (Hnone & _).
    rewrite lookup_insert_ne in Hr' by (intros ->; congruence).
    rewrite Hr in Hr'. injection Hr' as <-. rewrite Hu in Hu'. injection Hu' as <-. lia.
  - destruct (decide (k0 = k)) as [->|Hne].
    + rewrite lookup_insert_eq in Hr'. injection Hr' as <-.
      rewrite Hup in Hu'. injection Hu' as <-. done.
    + rewrite lookup_insert_ne in Hr' by done.
      rewrite Hr in Hr'. injection Hr' as <-. rewrite Hu in Hu'. injection Hu' as <-. lia.
  - apply lookup_delete_Some in Hr' as [_ Hr'].
    rewrite Hr in Hr'. injection Hr' as <-. rewrite Hu in Hu'. injection Hu' as <-. lia.
Qed.

(** X11.  After a successful creation the listing without a term shows
    the created record and, besides it, exactly what it showed before. *)
Theorem created_task_joins_the_listing (utcnow : nat → Z) request w d message w' :
  create_task utcnow request w = ({| body := BData d message; code := 201 |}, w') →
  listing (get_tasks ∅ w').1 ≡ₚ d :: listing (get_tasks ∅ w).1.
Proof.
  destruct (create_task_cases utcnow request w)
    as [[field ->]|[(e & w1 & -> & _)|(k & row & Hk & -> & _)]]; [done|done|].
  intros [= <- <- <-]. apply next_rowid_fresh in Hk as (Hnone & _).
  rewrite !get_tasks_eq, lookup_empty. change (default "" None) with "".
  rewrite !(decide_False (P := "" ≠ "" ∧ _)) by tauto.
  rewrite !(decide_True (P := "" = "")) by done.
  unfold listing. cbn [fst body table].
  rewrite !merge_sort_Permutation, (map_to_list_insert _ _ _ Hnone). done.
Qed.

(** X12.  A request whose id is written with digits reaches its handler,
    and no handler ever answers 404 or any status other than 200, 201,
    400 and 500; any other request is answered 404 by the framework.  A
    request answered 400, 404 or 500 leaves the table exactly as it
    was. *)
Theorem answers_and_failed_requests (utcnow : nat → Z) req w :
  (routed req → code (handle utcnow req w).1 ∈ [200; 201; 400; 500]%nat)
  ∧ (¬ routed req → code (handle utcnow req w).1 = 404%nat)
  ∧ (code (handle utcnow req w).1 ∈ [400; 404; 500]%nat →
     table (handle utcnow req w).2 = table w).
Proof.
  assert (H200 : (200 ∈ [200; 201; 400; 500])%nat) by (rewrite !elem_of_cons; auto).
  assert (H201 : (201 ∈ [200; 201; 400; 500])%nat) by (rewrite !elem_of_cons; auto).
  assert (H400 : (400 ∈ [200; 201; 400; 500])%nat) by (rewrite !elem_of_cons; auto).
  assert (H500 : (500 ∈ [200; 201; 400; 500])%nat) by (rewrite !elem_of_cons; auto).
  assert (N200 : ¬ (200 ∈ [400; 404; 500])%nat).
  { rewrite !elem_of_cons, elem_of_nil. lia. }
  assert (N201 : ¬ (201 ∈ [400; 404; 500])%nat).
  { rewrite !elem_of_cons, elem_of_nil. lia. }
  destruct req as [args|request|task_id|task_id request|task_id];
    cbn [handle routed]; unfold route; try destruct (decide (0 ≤ task_id));
    try (by repeat split).
  - split; [|split; [tauto|]].
    + intros _. rewrite get_tasks_eq. by destruct (decide _).
    + intros _. by rewrite get_tasks_world.
  - destruct (create_task_cases utcnow request w)
      as [[field ->]|[(e & w1 & -> & Ht & _)|(k & row & _ & -> & _)]];
      by repeat split.
  - rewrite get_task_eq. destruct (table w !! task_id); by repeat split.
  - destruct (table w !! task_id) as [r|] eqn:Hr.
    + destruct (update_task_stored utcnow task_id request w r Hr)
        as [(e & w1 & -> & Ht & _)|[[-> _]|(r' & -> & _)]]; by repeat split.
    + rewrite update_task_eq, Hr. by repeat split.
  - rewrite delete_task_eq. destruct (table w !! task_id); by repeat split.
Qed.

Section StampFacts.
Variable utcnow : nat → Z.

Lemma effect_dated req w w' : dated w → effect utcnow req w w' → dated w'.
Proof.
  intros Hw [Ht _|k row _ Ht Hc Hu _|k r r' Hr Ht Hc Hu _|k _ Ht _];
    intros k' x; rewrite Ht.
  - apply Hw.
  - destruct (decide (k = k')) as [<-|Hne].
    + rewrite lookup_insert_eq. intros [= <-]. rewrite Hc, Hu. by split.
    + rewrite lookup_insert_ne by done. apply Hw.
  - destruct (decide (k = k')) as [<-|Hne].
    + rewrite lookup_insert_eq. intros [= <-]. rewrite Hc, Hu.
      split; [by apply (Hw _ _ Hr)|done].
    + rewrite lookup_insert_ne by done. apply Hw.
  - intros [_ Hx]%lookup_delete_Some. by apply (Hw _ _ Hx).
Qed.

Lemma run_dated reqs w : dated w → dated (run utcnow reqs w).2.
Proof.
  revert w. induction reqs as [|req reqs IH]; intros w Hw; [done|].
  rewrite run_cons_snd. apply IH. eapply effect_dated; [done|apply handle_effect].
Qed.

Lemma initial_dated : dated (initial utcnow).
Proof.
  rewrite initial_eq. intros k r. cbn [table]. intros Hk.
  apply lookup_insert_Some in Hk as [[<- <-]|[_ Hk]]; [by split|].
  apply lookup_insert_Some in Hk as [[<- <-]|[_ Hk]]; [by split|done].
Qed.

End StampFacts.

(** X13.  In every world reached from the first start, each task a
    listing shows carries its id and both timestamps: for stored records
    the [None] branches of [to_dict] for [createdAt] and [updatedAt] are
    never taken. *)
Theorem listed_tasks_carry_id_and_stamps (utcnow : nat → Z) reqs args d :
  d ∈ listing (get_tasks args (run utcnow reqs (initial utcnow)).2).1 →
  is_Some (TaskDict.id d)
  ∧ is_Some (TaskDict.createdAt d)
  ∧ is_Some (TaskDict.updatedAt d).
Proof.
  intros (k & r & Hr & -> & _)%listing_elem.
  destruct (run_dated utcnow reqs _ (initial_dated utcnow) k r Hr) as [[c Hc] [u Hu]].
  cbn. rewrite Hc, Hu. by repeat split.
Qed.

(** ** Concrete runs of the further properties *)

(** Deleting the seeded task 2. *)
Lemma delete_removes_the_record_witness :
  ∃ r, table (initial sample_clock) !! 2 = Some r
  ∧ ∃ w',
    delete_task sample_clock 2 (initial sample_clock) =
      ({| body := BMessage "Task deleted successfully"; code := 200 |}, w')
    ∧ table w' !! 2 = None
    ∧ (∀ k, k ≠ 2 → table w' !! k = table (initial sample_clock) !! k)
    ∧ reads w' = reads (initial sample_clock)
    ∧ code (get_task 2 w').1 = 500%nat
    ∧ code (delete_task sample_clock 2 w').1 = 500%nat
    ∧ (∀ args d, d ∈ listing (get_tasks args w').1 → TaskDict.id d ≠ Some 2).
Proof.
  eexists. split; [vm_compute; reflexivity|].
  eapply (delete_removes_the_record sample_clock 2 (initial sample_clock)).
  vm_compute; reflexivity.
Defined.


(** Closing the seeded task 1 twice. *)
Lemma update_again_changes_nothing_witness :
  text_or_null (supplied closing) "status"
  ∧ text_or_null (supplied closing) "entityName"
  ∧ text_or_null (supplied closing) "notes"
  ∧ ∃ resp w',
    update_task sample_clock 1 closing (initial sample_clock) = (resp, w')
    ∧ code resp = 200%nat
    ∧ update_task sample_clock 1 closing w' = (resp, w').
Proof.
  assert (Ts : text_or_null (supplied closing) "status").
  { intros v Hv. vm_compute in Hv. injection Hv as <-. right. by eexists. }
  assert (Te : text_or_null (supplied closing) "entityName").
  { intros v Hv. vm_compute in Hv. discriminate Hv. }
  assert (Tn : text_or_null (supplied closing) "notes").
  { intros v Hv. vm_compute in Hv. discriminate Hv. }
  split; [exact Ts|]. split; [exact Te|]. split; [exact Tn|].
  eexists _, _. split; [vm_compute; reflexivity|]. split; [reflexivity|].
  eapply (update_again_changes_nothing sample_clock 1 closing (initial sample_clock)
            _ _ Ts Te Tn).
  - vm_compute; reflexivity.
  - reflexivity.
Defined.

(** Closing the seeded task 1, then getting it. *)
Lemma update_then_get_round_trip_witness :
  ∃ d message w',
    update_task sample_clock 1 closing (initial sample_clock)
    = ({| body := BData d message; code := 200 |}, w')
    ∧ get_task 1 w' = ({| body := BTask d; code := 200 |}, w').
Proof.
  eexists _, _, _. split; [vm_compute; reflexivity|].
  eapply (update_then_get_round_trip sample_clock 1 closing (initial sample_clock)).
  vm_compute; reflexivity.
Defined.

(** A create request that also carries an [id] and a [createdAt]. *)
Lemma create_reads_eight_members_witness :
  (∀ key, key ∈ create_keys →
     (<["id" := JInt 77]> (<["createdAt" := JStr "1999-01-01"]> sample_body)) !! key
     = sample_body !! key)
  ∧ create_task sample_clock
      (Json (JObj (<["id" := JInt 77]> (<["createdAt" := JStr "1999-01-01"]> sample_body))))
      (initial sample_clock)
    = create_task sample_clock (Json (JObj sample_body)) (initial sample_clock).
Proof.
  assert (Hagree : ∀ key, key ∈ create_keys →
     (<["id" := JInt 77]> (<["createdAt" := JStr "1999-01-01"]> sample_body)) !! key
     = sample_body !! key).
  { intros key Hin. unfold create_keys in Hin.
    repeat (apply elem_of_cons in Hin as [->|Hin]; [vm_compute; reflexivity|]).
    by apply elem_of_nil in Hin. }
  split; [exact Hagree|].
  apply (create_reads_eight_members sample_clock _ sample_body (initial sample_clock)
           Hagree).
Defined.

(** The terms ["RAVI"] and ["ravi"]. *)
Lemma search_term_case_is_ignored_witness :
  Sql.lower (list_ascii_of_string "RAVI") = Sql.lower (list_ascii_of_string "ravi")
  ∧ get_tasks {["search" := "RAVI"]} (initial sample_clock)
    = get_tasks {["search" := "ravi"]} (initial sample_clock).
Proof.
  split; [reflexivity|].
  apply (search_term_case_is_ignored "RAVI" "ravi" (initial sample_clock)).
  reflexivity.
Defined.

(** The id of a first creation. *)
Lemma stored_ids_are_positive_and_bounded_witness :
  is_Some (table (run sample_clock [POST_tasks sample_request] (initial sample_clock)).2 !! 3)
  ∧ 0 < 3 ≤ 2 + Z.of_nat (length [POST_tasks sample_request]).
Proof.
  assert (Hk : is_Some (table (run sample_clock [POST_tasks sample_request]
                                 (initial sample_clock)).2 !! 3)).
  { eexists. vm_compute. reflexivity. }
  split; [exact Hk|].
  apply (stored_ids_are_positive_and_bounded sample_clock [POST_tasks sample_request] 3 Hk).
Defined.

(** Closing the seeded task 1 after one creation: reading 1 before,
    reading 6 after. *)
Lemma updated_at_never_decreases_witness :
  clock_mono sample_clock
  ∧ ∃ r r',
      table (run sample_clock [POST_tasks sample_request] (initial sample_clock)).2 !! 1
      = Some r
      ∧ table (handle sample_clock (PATCH_task 1 closing)
                 (run sample_clock [POST_tasks sample_request] (initial sample_clock)).2).2 !! 1
        = Some r'
      ∧ Row.updated_at r = Some 1
      ∧ Row.updated_at r' = Some 6
      ∧ 1 ≤ 6.
Proof.
  assert (Hmono : clock_mono sample_clock).
  { unfold clock_mono, sample_clock. lia. }
  split; [exact Hmono|].
  eexists _, _.
  split; [vm_compute; reflexivity|]. split; [vm_compute; reflexivity|].
  split; [reflexivity|]. split; [reflexivity|].
  eapply (updated_at_never_decreases sample_clock [POST_tasks sample_request]
            (PATCH_task 1 closing) 1 _ _ 1 6 Hmono).
  - vm_compute; reflexivity.
  - vm_compute; reflexivity.
  - reflexivity.
  - reflexivity.
Defined.

(** A creation on the seeded table. *)
Lemma created_task_joins_the_listing_witness :
  ∃ d message w',
    create_task sample_clock sample_request (initial sample_clock)
    = ({| body := BData d message; code := 201 |}, w')
    ∧ listing (get_tasks ∅ w').1 ≡ₚ d :: listing (get_tasks ∅ (initial sample_clock)).1.
Proof.
  eexists _, _, _. split; [vm_compute; reflexivity|].
  eapply (created_task_joins_the_listing sample_clock sample_request
            (initial sample_clock)).
  vm_compute; reflexivity.
Defined.

(** The listing after one creation. *)
Lemma listed_tasks_carry_id_and_stamps_witness :
  ∃ d,
    d ∈ listing (get_tasks ∅ (run sample_clock [POST_tasks sample_request]
                                (initial sample_clock)).2).1
    ∧ is_Some (TaskDict.id d)
    ∧ is_Some (TaskDict.createdAt d)
    ∧ is_Some (TaskDict.updatedAt d).
Proof.
  eexists.
  assert (Hd : to_dict (load 1 {| Row.date := "2025-06-14"; Row.entity_name := "ABC Pvt Ltd";
                  Row.task_type := "Call"; Row.time := "10:00 AM";
                  Row.contact_person := "Ravi Kumar";
                  Row.notes := Some "Follow-up call for demo"; Row.status := "Open";
                  Row.phone_number := Some "+91-9876543210";
                  Row.created_at := Some 0; Row.updated_at := Some 1 |})
               ∈ listing (get_tasks ∅ (run sample_clock [POST_tasks sample_request]
                                         (initial sample_clock)).2).1).
  { vm_compute. apply list_elem_of_In. cbn. auto. }
  split; [exact Hd|].
  apply (listed_tasks_carry_id_and_stamps sample_clock [POST_tasks sample_request] ∅ _ Hd).
Defined.

(** * Bodies of other shapes *)

Section ShapeFacts.

Lemma unchanged_load task_id r : unchanged r (load task_id r) = true.
Proof.
  unfold unchanged, load.
  cbn [Task.date Task.entity_name Task.task_type Task.time Task.contact_person
       Task.notes Task.status Task.phone_number].
  by rewrite !same_as_loaded_str, !same_as_loaded_refl.
Qed.

End ShapeFacts.

(** X14.  A create request whose body is not a JSON object (it is not
    JSON at all, or it is null, a number, a string or a list) is answered
    500, and the world is left as it was: no row, no clock reading. *)
Theorem create_needs_an_object (utcnow : nat → Z) request w :
  (∀ data, request ≠ Json (JObj data)) →
  code (create_task utcnow request w).1 = 500%nat
  ∧ (create_task utcnow request w).2 = w.
Proof.
  intros Hno. by destruct (create_task_not_obj utcnow request w Hno) as [e ->].
Qed.

(** X15.  An update of a stored task whose body is not a JSON object
    never changes the world.  It is answered 200, with the stored record
    as it is, exactly when the body is a list that has none of the
    strings [status], [entityName] and [notes] among its elements, or a
    string that contains none of them; in every other case it is answered
    500. *)
Theorem update_with_no_object (utcnow : nat → Z) task_id request w r :
  table w !! task_id = Some r →
  (∀ data, request ≠ Json (JObj data)) →
  (update_task utcnow task_id request w).2 = w
  ∧ (code (update_task utcnow task_id request w).1 = 200%nat
     ∨ code (update_task utcnow task_id request w).1 = 500%nat)
  ∧ (code (update_task utcnow task_id request w).1 = 200%nat ↔
     ∃ data, request = Json data
       ∧ ((∃ items, data = JArr items) ∨ (∃ s, data = JStr s))
       ∧ found_in data "status" = false
       ∧ found_in data "entityName" = false
       ∧ found_in data "notes" = false)
  ∧ (code (update_task utcnow task_id request w).1 = 200%nat →
     body (update_task utcnow task_id request w).1
     = BData (to_dict (load task_id r)) "Task updated successfully").
Proof.
  intros Hr Hno. rewrite update_task_eq, Hr.
  assert (Hseq : ∀ data,
    ((∃ items, data = JArr items) ∨ (∃ s, data = JStr s)) →
    let resp :=
      match
        (if found_in data "status" || found_in data "entityName" || found_in data "notes"
         then inl (TypeError "indices must be integers")
         else inr (load task_id r) : exn + Task.t)
      with
      | inl e => ({| body := BFail (str e); code := 500 |}, w)
      | inr t =>
          if unchanged r t
          then ({| body := BData (to_dict (load task_id r)) "Task updated successfully";
                   code := 200 |}, w)
          else
            match update_values r t (utcnow (reads w)) with
            | inr r' =>
                ({| body := BData (to_dict (load task_id r')) "Task updated successfully";
                    code := 200 |},
                 {| table := <[task_id := r']> (table w); reads := S (reads w) |})
            | inl e =>
                ({| body := BFail (str e); code := 500 |},
                 {| table := table w; reads := S (reads w) |})
            end
      end in
    resp.2 = w
    ∧ (code resp.1 = 200%nat ∨ code resp.1 = 500%nat)
    ∧ (code resp.1 = 200%nat ↔
       ∃ data', Json data = Json data'
         ∧ ((∃ items, data' = JArr items) ∨ (∃ s, data' = JStr s))
         ∧ found_in data' "status" = false
         ∧ found_in data' "entityName" = false
         ∧ found_in data' "notes" = false)
    ∧ (code resp.1 = 200%nat →
       body resp.1 = BData (to_dict (load task_id r)) "Task updated successfully")).
  { intros data Hkind. cbn zeta.
    destruct (found_in data "status") eqn:Fs; cbn [orb].
    { split; [done|]. split; [by right|]. split; [|done]. split; [done|].
      intros (data' & [= <-] & _ & Fs' & _). congruence. }
    destruct (found_in data "entityName") eqn:Fe; cbn [orb].
    { split; [done|]. split; [by right|]. split; [|done]. split; [done|].
      intros (data' & [= <-] & _ & _ & Fe' & _). congruence. }
    destruct (found_in data "notes") eqn:Fn.
    { split; [done|]. split; [by right|]. split; [|done]. split; [done|].
      intros (data' & [= <-] & _ & _ & _ & Fn'). congruence. }
    rewrite unchanged_load. split; [done|]. split; [by left|]. split; [|done].
    split; [|done]. intros _. by exists data. }
  assert (Hfail : ∀ e : exn,
    let resp := ({| body := BFail (str e); code := 500 |}, w) in
    (∀ data', request = Json data' →
       ¬ ((∃ items, data' = JArr items) ∨ (∃ s, data' = JStr s))) →
    resp.2 = w
    ∧ (code resp.1 = 200%nat ∨ code resp.1 = 500%nat)
    ∧ (code resp.1 = 200%nat ↔
       ∃ data', request = Json data'
         ∧ ((∃ items, data' = JArr items) ∨ (∃ s, data' = JStr s))
         ∧ found_in data' "status" = false
         ∧ found_in data' "entityName" = false
         ∧ found_in data' "notes" = false)
    ∧ (code resp.1 = 200%nat →
       body resp.1 = BData (to_dict (load task_id r)) "Task updated successfully")).
  { intros e resp Hkind. split; [done|]. split; [by right|]. split; [|done].
    split; [done|]. intros (data' & Hd & Hk & _). by destruct (Hkind data' Hd). }
  destruct request as [|data].
  { apply Hfail. intros data' [=]. }
  destruct data as [|b|z|nz st|s|items|members]; cbn [assigned_of].
  - apply Hfail. intros data' [= <-] [[? [=]]|[? [=]]].
  - apply Hfail. intros data' [= <-] [[? [=]]|[? [=]]].
  - apply Hfail. intros data' [= <-] [[? [=]]|[? [=]]].
  - apply Hfail. intros data' [= <-] [[? [=]]|[? [=]]].
  - apply (Hseq (JStr s)). right. by eexists.
  - apply (Hseq (JArr items)). left. by eexists.
  - by destruct (Hno members).
Qed.

(** X16.  A number is stored as text.  An update that carries a 64-bit
    integer for [status] succeeds, stores the decimal text of the
    integer, and takes a clock reading for [updatedAt]; the answer shows
    the text.  (The text differs from the integer, so the same request
    sent again is written again.) *)
Theorem update_stores_a_number_as_text (utcnow : nat → Z) task_id z w r :
  table w !! task_id = Some r →
  int64 z →
  update_task utcnow task_id (Json (JObj {["status" := JInt z]})) w =
    ({| body :=
          BData (to_dict (load task_id
                   {| Row.date := Row.date r; Row.entity_name := Row.entity_name r;
                      Row.task_type := Row.task_type r; Row.time := Row.time r;
                      Row.contact_person := Row.contact_person r;
                      Row.notes := Row.notes r; Row.status := pretty z;
                      Row.phone_number := Row.phone_number r;
                      Row.created_at := Row.created_at r;
                      Row.updated_at := Some (utcnow (reads w)) |}))
            "Task updated successfully";
        code := 200 |},
     {| table :=
          <[task_id :=
              {| Row.date := Row.date r; Row.entity_name := Row.entity_name r;
                 Row.task_type := Row.task_type r; Row.time := Row.time r;
                 Row.contact_person := Row.contact_person r;
                 Row.notes := Row.notes r; Row.status := pretty z;
                 Row.phone_number := Row.phone_number r;
                 Row.created_at := Row.created_at r;
                 Row.updated_at := Some (utcnow (reads w)) |}]> (table w);
        reads := S (reads w) |}).
Proof.
  intros Hr Hz. rewrite update_task_eq, Hr. cbn [assigned_of].
  destruct (unchanged r _) eqn:Hun.
  { exfalso. apply unchanged_assigned in Hun. apply Hun. left.
    exists (JInt z). by rewrite lookup_singleton_eq. }
  rewrite update_values_assigned.
  rewrite lookup_singleton_eq, !lookup_singleton_ne by done.
  cbn [default from_option id].
  rewrite set_value_str, set_value_loaded.
  unfold set_value. cbn [same_as_loaded bind]. by rewrite decide_True.
Qed.

(** ** Concrete runs with such bodies *)

(** A create request with an empty list for a body. *)
Lemma create_needs_an_object_witness :
  (∀ data, Json (JArr []) ≠ Json (JObj data))
  ∧ code (create_task sample_clock (Json (JArr [])) (initial sample_clock)).1 = 500%nat
  ∧ (create_task sample_clock (Json (JArr [])) (initial sample_clock)).2
    = initial sample_clock.
Proof.
  assert (Hno : ∀ data, Json (JArr []) ≠ Json (JObj data)) by done.
  split; [exact Hno|].
  exact (create_needs_an_object sample_clock (Json (JArr [])) (initial sample_clock) Hno).
Defined.

(** An update of the seeded task 1 with an empty list for a body. *)
Lemma update_with_no_object_witness :
  ∃ r, table (initial sample_clock) !! 1 = Some r
  ∧ (∀ data, Json (JArr []) ≠ Json (JObj data))
  ∧ code (update_task sample_clock 1 (Json (JArr [])) (initial sample_clock)).1 = 200%nat
  ∧ (update_task sample_clock 1 (Json (JArr [])) (initial sample_clock)).2
    = initial sample_clock
  ∧ body (update_task sample_clock 1 (Json (JArr [])) (initial sample_clock)).1
    = BData (to_dict (load 1 r)) "Task updated successfully".
Proof.
  destruct (table (initial sample_clock) !! 1) as [r|] eqn:Hr;
    [|vm_compute in Hr; discriminate Hr].
  assert (Hno : ∀ data, Json (JArr []) ≠ Json (JObj data)) by done.
  exists r. split; [reflexivity|]. split; [exact Hno|].
  destruct (update_with_no_object sample_clock 1 (Json (JArr [])) (initial sample_clock)
              r Hr Hno) as (Hw & _ & H200 & Hbody).
  assert (Hok : code (update_task sample_clock 1 (Json (JArr []))
                        (initial sample_clock)).1 = 200%nat).
  { apply H200. exists (JArr []). split; [done|]. split; [left; by eexists|].
    by repeat split. }
  split; [exact Hok|]. split; [exact Hw|]. exact (Hbody Hok).
Defined.

(** The integer 5 for the status of the seeded task 1. *)
Lemma update_stores_a_number_as_text_witness :
  ∃ r resp w',
    table (initial sample_clock) !! 1 = Some r
    ∧ int64 5
    ∧ update_task sample_clock 1 (Json (JObj {["status" := JInt 5]})) (initial sample_clock)
      = (resp, w')
    ∧ code resp = 200%nat
    ∧ Row.status <$> (table w' !! 1) = Some "5"
    ∧ Row.updated_at <$> (table w' !! 1) = Some (Some 4).
Proof.
  destruct (table (initial sample_clock) !! 1) as [r|] eqn:Hr;
    [|vm_compute in Hr; discriminate Hr].
  assert (Hz : int64 5) by (unfold int64; lia).
  eexists r, _, _. split; [reflexivity|]. split; [exact Hz|].
  split; [exact (update_stores_a_number_as_text sample_clock 1 5 (initial sample_clock)
                   r Hr Hz)|].
  split; [reflexivity|]. cbn [table]. rewrite lookup_insert_eq. split; reflexivity.
Defined.
